(** * SADE: flow configuration and dataset/loader construction

    A shallow embedding of

    - [sade/configs/flows/v2_flow_config.py] ([get_config]), and
    - [sade/datasets/loaders.py] ([get_dataloaders]),

    followed by the properties established about them.

    Conventions.  Python strings are taken to be ASCII and are modelled by
    [string].  Objects built by external libraries (MONAI's [CacheDataset],
    PyTorch's [DataLoader] and [RandomSampler]) are modelled by records that
    keep exactly the arguments the source passes to their constructors; an
    argument the source leaves out is [None].  The libraries themselves are
    not part of the sources at hand.  Where the code depends on what they
    do, that is a parameter of the model rather than a guess: whether a
    constructor of MONAI or PyTorch raises on the arguments it is given, and
    what the type check of [ml_collections] stores when a field of a
    configuration is overwritten. *)

From stdpp Require Import gmap strings list fin_maps.
From Stdlib Require Import ZArith QArith.

Set Warnings "-register-all".

Local Open Scope Z_scope.
Local Open Scope string_scope.

(** ** Python strings *)

Module PyStr.

(** [str.lower] on one ASCII character: "A".."Z" move to "a".."z". *)
Definition lower_char (c : Ascii.ascii) : Ascii.ascii :=
  let n := Ascii.N_of_ascii c in
  if ((65 <=? n) && (n <=? 90))%N then Ascii.ascii_of_N (n + 32) else c.

(** [s.lower()]. *)
Fixpoint lower (s : string) : string :=
  match s with
  | EmptyString => EmptyString
  | String c s' => String (lower_char c) (lower s')
  end.

(** [sub in s]: [sub] occurs in [s] at some position. *)
Fixpoint contains (sub s : string) : bool :=
  String.prefix sub s ||
  match s with
  | EmptyString => false
  | String _ s' => contains sub s'
  end.

(** [re.match(r"(a1|a2|...)", s)] for a pattern that is an alternation of
    literal strings: [re.match] anchors at the start of [s] only, so there
    is a match exactly when one alternative is a prefix of [s].  A match
    object is always truthy and the absence of a match is [None], so the
    outcome as tested by [assert] is a boolean. *)
Definition re_match (alternatives : list string) (s : string) : bool :=
  existsb (fun a => String.prefix a s) alternatives.

End PyStr.

(** ** The flow configuration ([v2_flow_config.py]) *)

Module FlowConfig.

(** Values stored in an [ml_collections.ConfigDict]: scalars, and nested
    configuration dictionaries keyed by field name.  A dictionary carries
    its two flags: whether it is locked (no new field may be added), and
    whether it is type safe (the type of a field may not change).  A
    configuration is a tree of such values: no dictionary is shared between
    two fields, and no field holds a [FieldReference]. *)
Inductive value : Type :=
| VNone
| VBool (b : bool)
| VInt (z : Z)
| VFloat (q : Q)
| VStr (s : string)
| ConfigDict (locked type_safe : bool) (fields : gmap string value).

Inductive error : Type :=
| AttributeError (name : string)
| TypeError (name : string).

Definition result (A : Type) : Type := error + A.

Definition ret {A} (a : A) : result A := inr a.

Definition bind {A B} (m : result A) (k : A -> result B) : result B :=
  match m with
  | inl e => inl e
  | inr a => k a
  end.

Notation "'let*' x := m 'in' k" := (bind m (fun x => k))
  (at level 10, x pattern, m at level 100, k at level 200).

(** Two values of the same Python type. *)
Definition same_kind (a b : value) : bool :=
  match a, b with
  | VNone, VNone
  | VBool _, VBool _
  | VInt _, VInt _
  | VFloat _, VFloat _
  | VStr _, VStr _
  | ConfigDict _ _ _, ConfigDict _ _ _ => true
  | _, _ => false
  end.

(** What [ml_collections] does when an existing field is overwritten:
    [_safe_cast(value, type(field), type_safe)] returns the value to store,
    which can be a conversion of the one assigned (an [int] assigned to a
    [float] field is stored as a [float]), or raises [TypeError].  The
    library is not part of the sources at hand, so its cast is a parameter:
    [safe_cast type_safe old v] is the value stored when [v] is assigned to
    a field holding [old], and [None] when the assignment is refused.  Three
    facts about the cast are taken for granted: a value of the field's own
    type is stored as it is (the cast returns a value that is an instance
    of the field's type unchanged); assigning again what was assigned
    stores again what was stored (a conversion depends on the type of the
    field only, and gives a value of that type); a dictionary is never
    converted. *)
Record TypeSafety : Type := {
  safe_cast : bool -> value -> value -> option value;
  same_kind_kept : ∀ type_safe old v,
    same_kind old v = true → safe_cast type_safe old v = Some v;
  recast_stable : ∀ type_safe old v w,
    safe_cast type_safe old v = Some w → safe_cast type_safe w v = Some w;
  dict_not_converted : ∀ type_safe old lk ts f w,
    safe_cast type_safe old (ConfigDict lk ts f) = Some w →
    w = ConfigDict lk ts f
}.

Section Library.

Variable lib : TypeSafety.

(** [obj.name]: reading a field that is absent raises [AttributeError]. *)
Definition getattr (obj : value) (name : string) : result value :=
  match obj with
  | ConfigDict _ _ fields =>
      match fields !! name with
      | Some v => inr v
      | None => inl (AttributeError name)
      end
  | _ => inl (AttributeError name)
  end.

(** The value stored by [d[name] = v] in a dictionary with the given flags
    whose field [name] holds [old] ([None]: there is no such field).  An
    existing field goes through the cast, which can refuse ([TypeError]); a
    new field is refused by a locked dictionary (a [KeyError], which
    [__setattr__] turns into [AttributeError]). *)
Definition checked_value (locked type_safe : bool) (old : option value)
    (name : string) (v : value) : result value :=
  match old with
  | Some o =>
      match safe_cast lib type_safe o v with
      | Some w => inr w
      | None => inl (TypeError name)
      end
  | None => if locked then inl (AttributeError name) else inr v
  end.

(** [obj.name = v]. *)
Definition setattr (obj : value) (name : string) (v : value) : result value :=
  match obj with
  | ConfigDict locked type_safe fields =>
      let* w := checked_value locked type_safe (fields !! name) name v in
      ret (ConfigDict locked type_safe (<[name := w]> fields))
  | _ => inl (AttributeError name)
  end.

(** The dictionary [obj] after the object it holds under [name] was mutated
    in place into [sub]: no assignment to [obj] takes place, so nothing is
    checked. *)
Definition mutated_under (obj : value) (name : string) (sub : value) : value :=
  match obj with
  | ConfigDict locked type_safe fields =>
      ConfigDict locked type_safe (<[name := sub]> fields)
  | _ => obj
  end.

(** [obj.p1. ... .pn.name = v].  The sub-dictionaries along the path are
    read with [getattr]; the assignment mutates the innermost one in
    place, which in a tree of values is the rebuilt spine. *)
Fixpoint setattr_at (obj : value) (path : list string) (name : string)
    (v : value) : result value :=
  match path with
  | [] => setattr obj name v
  | p :: ps =>
      let* sub := getattr obj p in
      let* sub' := setattr_at sub ps name v in
      ret (mutated_under obj p sub')
  end.

(** [ml_collections.ConfigDict()]: no fields, not locked, type safe. *)
Definition new_ConfigDict : value := ConfigDict false true ∅.

(** [get_config()].  The base configuration comes from
    [sade.configs.ve.biggan_config.get_config], which is not part of the
    sources at hand: its result is the parameter [get_default_config].
    The local [flow] is a reference to the dictionary stored in
    [config.flow], so an assignment [flow.x = v] is an assignment at
    [config.flow.x]. *)
Definition get_config (get_default_config : value) : result value :=
  let config := get_default_config in

  let* config := setattr_at config ["training"] "batch_size" (VInt 64) in
  let* config := setattr_at config ["training"] "log_freq" (VInt 5) in
  let* config := setattr_at config ["training"] "use_fp16" (VBool true) in

  let* config := setattr_at config ["eval"] "batch_size" (VInt 64) in

  (* flow = config.flow *)
  let* _ := getattr config "flow" in
  let* config := setattr_at config ["flow"] "base_distribution"
              (VStr "multivariate_normal") in
  let* config := setattr_at config ["flow"] "num_blocks" (VInt 20) in
  let* config := setattr_at config ["flow"] "context_embedding_size" (VInt 128) in
  let* config := setattr_at config ["flow"] "use_global_context" (VBool true) in
  let* config := setattr_at config ["flow"] "global_embedding_size" (VInt 512) in
  let* config := setattr_at config ["flow"] "input_norm" (VBool false) in

  let* config := setattr_at config ["flow"] "patch_batch_size" (VInt 32) in
  let* config := setattr_at config ["flow"] "patches_per_train_step" (VInt 256) in
  let* config := setattr_at config ["flow"] "training_kimg" (VInt 50) in

  let* config := setattr_at config ["flow"] "local_patch_config" new_ConfigDict in
  let* config := setattr_at config ["flow"; "local_patch_config"] "kernel_size" (VInt 3) in
  let* config := setattr_at config ["flow"; "local_patch_config"] "padding" (VInt 1) in
  let* config := setattr_at config ["flow"; "local_patch_config"] "stride" (VInt 1) in

  let* config := setattr_at config ["flow"] "global_patch_config" new_ConfigDict in
  let* config := setattr_at config ["flow"; "global_patch_config"] "kernel_size" (VInt 17) in
  let* config := setattr_at config ["flow"; "global_patch_config"] "padding" (VInt 0) in
  let* config := setattr_at config ["flow"; "global_patch_config"] "stride" (VInt 8) in

  ret config.

End Library.

(** *** Vocabulary for the properties *)

(** Reading along a path of field names. *)
Fixpoint getattr_path (obj : value) (path : list string) : option value :=
  match path with
  | [] => Some obj
  | p :: ps =>
      match obj with
      | ConfigDict _ _ fields =>
          match fields !! p with
          | Some sub => getattr_path sub ps
          | None => None
          end
      | _ => None
      end
  end.

(** The fields [get_config] assigns, as paths from the root. *)
Definition assigned_fields : list (list string) :=
  [ ["training"; "batch_size"]; ["training"; "log_freq"];
    ["training"; "use_fp16"];
    ["eval"; "batch_size"];
    ["flow"; "base_distribution"]; ["flow"; "num_blocks"];
    ["flow"; "context_embedding_size"]; ["flow"; "use_global_context"];
    ["flow"; "global_embedding_size"]; ["flow"; "input_norm"];
    ["flow"; "patch_batch_size"]; ["flow"; "patches_per_train_step"];
    ["flow"; "training_kimg"];
    ["flow"; "local_patch_config"]; ["flow"; "global_patch_config"] ].

(** The fields the specification lists as overridden: training and eval
    batch sizes, the precision flag, the block count, the two
    context-embedding sizes and the two patch-geometry sub-configurations. *)
Definition listed_fields : list (list string) :=
  [ ["training"; "batch_size"]; ["eval"; "batch_size"];
    ["training"; "use_fp16"];
    ["flow"; "num_blocks"];
    ["flow"; "context_embedding_size"]; ["flow"; "global_embedding_size"];
    ["flow"; "local_patch_config"]; ["flow"; "global_patch_config"] ].

(** [is_prefix p q]: the path [p] is an initial segment of [q]. *)
Fixpoint is_prefix (p q : list string) : bool :=
  match p, q with
  | [], _ => true
  | _ :: _, [] => false
  | a :: p', b :: q' => String.eqb a b && is_prefix p' q'
  end.

(** Two paths are apart when neither lies on the other: [p] is not inside
    the field [f], and is not one of the dictionaries enclosing it. *)
Definition apart (f p : list string) : bool :=
  negb (is_prefix f p) && negb (is_prefix p f).

Definition apart_from (fields : list (list string)) (p : list string) : bool :=
  forallb (fun f => apart f p) fields.

(** Frame condition: everything apart from [fields] reads the same in
    [cfg] as in [base]. *)
Definition unchanged_outside (fields : list (list string))
    (base cfg : value) : Prop :=
  ∀ p, apart_from fields p = true → getattr_path cfg p = getattr_path base p.

(** There is a dictionary at path [p]. *)
Definition is_dict_at (obj : value) (p : list string) : Prop :=
  ∃ locked type_safe fields,
    getattr_path obj p = Some (ConfigDict locked type_safe fields).

(** The sections [get_config] reads from the base configuration. *)
Definition has_sections (base : value) : Prop :=
  is_dict_at base ["training"] ∧ is_dict_at base ["eval"] ∧
  is_dict_at base ["flow"].

(** What an assignment to [path.name] meets: the flags of the dictionary at
    [path], and what that dictionary holds under [name]. *)
Definition field_view (obj : value) (path : list string) (name : string)
  : option (bool * bool * option value) :=
  match getattr_path obj path with
  | Some (ConfigDict locked type_safe fields) =>
      Some (locked, type_safe, fields !! name)
  | _ => None
  end.

(** What the assignment [obj.path.name = v] stores, when it is accepted:
    there is a dictionary at [path], and the check lets [v] through. *)
Definition stored_by (lib : TypeSafety) (obj : value) (path : list string)
    (name : string) (v : value) : option value :=
  match field_view obj path name with
  | Some (locked, type_safe, old) =>
      match checked_value lib locked type_safe old name v with
      | inr w => Some w
      | inl _ => None
      end
  | None => None
  end.

(** The assignment [obj.path.name = v] is accepted and stores [w]. *)
Definition accepts (lib : TypeSafety) (obj : value) (path : list string)
    (name : string) (v w : value) : Prop :=
  stored_by lib obj path name v = Some w.

(** The field [path.name] holds [w], and assigning [v] to it stores [w]
    again. *)
Definition settled (lib : TypeSafety) (obj : value) (path : list string)
    (name : string) (v w : value) : Prop :=
  ∃ locked type_safe,
    field_view obj path name = Some (locked, type_safe, Some w) ∧
    safe_cast lib type_safe w v = Some w.

(** Every field apart from [fields] is met in [cfg] as it is in [base]. *)
Definition same_views (fields : list (list string)) (base cfg : value) : Prop :=
  ∀ p n, apart_from fields (p ++ [n]) = true →
         field_view cfg p n = field_view base p n.

(** [obj] with [w] stored under [path.name], whatever was there. *)
Fixpoint put_field (obj : value) (path : list string) (name : string)
    (w : value) : value :=
  match obj with
  | ConfigDict locked type_safe fields =>
      match path with
      | [] => ConfigDict locked type_safe (<[name := w]> fields)
      | p :: ps =>
          match fields !! p with
          | Some sub =>
              ConfigDict locked type_safe (<[p := put_field sub ps name w]> fields)
          | None => obj
          end
      end
  | _ => obj
  end.

(** The scalar fields [get_config] assigns, each with its section, its name
    and the value assigned, in the order of the source. *)
Definition scalar_overrides : list (list string * string * value) :=
  [ (["training"], "batch_size", VInt 64);
    (["training"], "log_freq", VInt 5);
    (["training"], "use_fp16", VBool true);
    (["eval"], "batch_size", VInt 64);
    (["flow"], "base_distribution", VStr "multivariate_normal");
    (["flow"], "num_blocks", VInt 20);
    (["flow"], "context_embedding_size", VInt 128);
    (["flow"], "use_global_context", VBool true);
    (["flow"], "global_embedding_size", VInt 512);
    (["flow"], "input_norm", VBool false);
    (["flow"], "patch_batch_size", VInt 32);
    (["flow"], "patches_per_train_step", VInt 256);
    (["flow"], "training_kimg", VInt 50) ].

(** The values assigned to the scalar fields. *)
Definition assigned_scalars : list value :=
  map (λ override, override.2) scalar_overrides.

(** The base configuration accepts the fifteen assignments [get_config]
    makes to its sections: the scalar ones, storing [stored], and the two
    fresh dictionaries under [flow]. *)
Definition overrides_accepted (lib : TypeSafety) (base : value)
    (stored : list value) : Prop :=
  Forall2 (λ '(path, name, v) w, accepts lib base path name v w)
    scalar_overrides stored ∧
  (∃ w, accepts lib base ["flow"] "local_patch_config" new_ConfigDict w) ∧
  (∃ w, accepts lib base ["flow"] "global_patch_config" new_ConfigDict w).

(** The two patch configurations [get_config] leaves under [flow]. *)
Definition local_patch_config : value :=
  ConfigDict false true
    (<["stride" := VInt 1]> (<["padding" := VInt 1]>
     (<["kernel_size" := VInt 3]> ∅))).

Definition global_patch_config : value :=
  ConfigDict false true
    (<["stride" := VInt 8]> (<["padding" := VInt 0]>
     (<["kernel_size" := VInt 17]> ∅))).

(** *** Sample inputs, used in examples *)

(** A cast used in examples.  It stores a value of the field's own type as
    it is, lets [None] be overwritten and be assigned, stores an [int] as a
    [float] in a [float] field, and otherwise refuses in a type-safe
    dictionary and stores the value as it is in one that is not. *)
Definition strict_cast (type_safe : bool) (old v : value) : option value :=
  if same_kind old v then Some v
  else
    match old, v with
    | VNone, _ => Some v
    | _, VNone => Some v
    | VFloat _, VInt z => Some (VFloat (inject_Z z))
    | _, _ => if type_safe then None else Some v
    end.

Lemma strict_same_kind_kept type_safe old v :
  same_kind old v = true → strict_cast type_safe old v = Some v.
Proof. unfold strict_cast. by intros ->. Qed.

Lemma strict_recast_stable type_safe old v w :
  strict_cast type_safe old v = Some w → strict_cast type_safe w v = Some w.
Proof.
  unfold strict_cast.
  destruct old, v, type_safe; cbn; intros [= <-]; cbn; done.
Qed.

Lemma strict_dict_not_converted type_safe old lk ts f w :
  strict_cast type_safe old (ConfigDict lk ts f) = Some w →
  w = ConfigDict lk ts f.
Proof.
  unfold strict_cast. destruct old, type_safe; cbn; by intros [= <-].
Qed.

Definition strict : TypeSafety :=
  {| safe_cast := strict_cast;
     same_kind_kept := strict_same_kind_kept;
     recast_stable := strict_recast_stable;
     dict_not_converted := strict_dict_not_converted |}.

(** A small base configuration: unlocked, type-safe dictionaries whose
    fields hold integers. *)
Definition sample_base : value :=
  ConfigDict false true
    (<["training" := ConfigDict false true
         (<["batch_size" := VInt 8]> (<["log_freq" := VInt 50]>
          (<["n_iters" := VInt 1000]> ∅)))]>
    (<["eval" := ConfigDict false true (<["batch_size" := VInt 16]> ∅)]>
    (<["flow" := ConfigDict false true (<["num_blocks" := VInt 4]> ∅)]>
    (<["seed" := VInt 42]> ∅)))).

(** The same with a [training] section of another shape: [fields] is what
    the section holds. *)
Definition base_with_training (fields : gmap string value) : value :=
  ConfigDict false true
    (<["training" := ConfigDict false true fields]>
    (<["eval" := ConfigDict false true (<["batch_size" := VInt 16]> ∅)]>
    (<["flow" := ConfigDict false true (<["num_blocks" := VInt 4]> ∅)]> ∅))).

End FlowConfig.

(** ** Datasets and loaders ([loaders.py]) *)

Module Loaders.

Import PyStr.

(** *** Data *)

(** Modelled from the spec: [sade.datasets.filenames] is not part of the
    sources at hand.  A file list is "an ordered sequence of file-path
    records (image path, optional label/mask path)". *)
Record FileRecord : Type := mkFileRecord {
  image : string;
  label : option string
}.

(** The fields of [config] that [get_dataloaders] reads. *)
Record DataConfig : Type := mkDataConfig {
  dataset : string;
  ood_ds : string;
  splits_dir : string;
  dir_path : string;
  cache_rate : Q
}.

Record Config : Type := mkConfig {
  data : DataConfig;
  training_batch_size : Z;   (* config.training.batch_size *)
  eval_batch_size : Z        (* config.eval.batch_size *)
}.

(** Modelled from the spec: [sade.datasets.transforms] is not part of the
    sources at hand.  Its four "named transform-pipeline builders (train,
    validation, tumor-specific, lesion-specific) each taking the
    configuration and returning a composed transform" are kept symbolic:
    a transform is the name of the builder and the configuration it was
    given. *)
Inductive Transform : Type :=
| TrainTransform (config : Config)
| ValTransform (config : Config)
| TumorTransform (config : Config)
| LesionTransform (config : Config).

Definition get_train_transform : Config -> Transform := TrainTransform.
Definition get_val_transform : Config -> Transform := ValTransform.
Definition get_tumor_transform : Config -> Transform := TumorTransform.
Definition get_lesion_transform : Config -> Transform := LesionTransform.

(** [CacheDataset(data, transform=, cache_rate=, num_workers=, progress=)]. *)
Record CacheDataset : Type := mkCacheDataset {
  ds_data : list FileRecord;
  ds_transform : Transform;
  ds_cache_rate : Q;
  ds_num_workers : Z;
  ds_progress : bool
}.

(** [if ds:] on a dataset object.  MONAI's [Dataset] defines [__len__] as
    the length of its data and no [__bool__], so Python takes a dataset to
    be true exactly when its data is not empty. *)
Definition ds_truthy (ds : CacheDataset) : bool :=
  negb (Nat.eqb (length (ds_data ds)) 0).

(** [RandomSampler(data_source, replacement=, num_samples=)]. *)
Record RandomSampler : Type := mkRandomSampler {
  data_source : CacheDataset;
  replacement : bool;
  num_samples : Z
}.

(** [int(1e100)]: the integer value of the double nearest to 10^100. *)
Definition int_1e100 : Z :=
  10000000000000000159028911097599180468360808563945281389781327557747838772170381060813469985856815104.

(** [functools.partial(RandomSampler, replacement=True,
    num_samples=int(1e100))]. *)
Definition partial_RandomSampler (ds : CacheDataset) : RandomSampler :=
  mkRandomSampler ds true int_1e100.

(** [DataLoader(dataset, batch_size=, shuffle=, num_workers=, pin_memory=,
    prefetch_factor=, persistent_workers=, sampler=)]; [None] in
    [shuffle], [prefetch_factor] and [persistent_workers] is a keyword the
    call does not pass. *)
Record DataLoader : Type := mkDataLoader {
  dl_dataset : CacheDataset;
  batch_size : Z;
  shuffle : option bool;
  dl_num_workers : Z;
  pin_memory : bool;
  prefetch_factor : option Z;
  persistent_workers : option bool;
  sampler : option RandomSampler
}.

(** *** Effects *)

(** What a call does to the outside, in order. *)
Inductive Event : Type :=
| EvPrint (msg : string)
| EvGetImageFilesList (dataset_name dataset_dir splits_dir : string)
| EvCacheDataset (ds : CacheDataset)
| EvDataLoader (dl : DataLoader).

(** [LibraryError] is an exception raised inside a library constructor
    ([CacheDataset], [DataLoader]); [what] is its text. *)
Inductive Exception : Type :=
| AssertionError (msg : option string)
| UnboundLocalError (name : string)
| LibraryError (what : string).

Inductive Outcome (A : Type) : Type :=
| Returned (a : A)
| Raised (e : Exception).
Arguments Returned {A} a.
Arguments Raised {A} e.

(** A computation extends the log of events and returns or raises. *)
Definition M (A : Type) : Type := list Event -> Outcome A * list Event.

Definition ret {A} (a : A) : M A := fun log => (Returned a, log).

Definition bind {A B} (m : M A) (k : A -> M B) : M B :=
  fun log =>
    match m log with
    | (Returned a, log') => k a log'
    | (Raised e, log') => (Raised e, log')
    end.

Definition raise {A} (e : Exception) : M A := fun log => (Raised e, log).

Definition emit (ev : Event) : M unit := fun log => (Returned tt, (log ++ [ev])%list).

Notation "'let*' x := m 'in' k" := (bind m (fun x => k))
  (at level 10, x pattern, m at level 100, k at level 200).
Notation "m ;; k" := (bind m (fun _ => k))
  (at level 100, k at level 200, right associativity).

(** [assert cond, msg]. *)
Definition assert_ (cond : bool) (msg : option string) : M unit :=
  if cond then ret tt else raise (AssertionError msg).

(** [print(msg)]. *)
Definition print (msg : string) : M unit := emit (EvPrint msg).

(** Reading a local variable that may not have been assigned. *)
Definition read_local {A} (name : string) (x : option A) : M A :=
  match x with
  | Some a => ret a
  | None => raise (UnboundLocalError name)
  end.

(** Running a computation from the empty log. *)
Definition run {A} (m : M A) : Outcome A * list Event := m [].

(** The calls to the file-enumeration collaborator in a log. *)
Definition enumerations (log : list Event) : list (string * string * string) :=
  omap (fun ev => match ev with
                  | EvGetImageFilesList n d s => Some (n, d, s)
                  | _ => None
                  end) log.

(** The datasets constructed in a log. *)
Definition datasets_built (log : list Event) : list CacheDataset :=
  omap (fun ev => match ev with EvCacheDataset ds => Some ds | _ => None end) log.

(** The loaders constructed in a log. *)
Definition loaders_built (log : list Event) : list DataLoader :=
  omap (fun ev => match ev with EvDataLoader dl => Some dl | _ => None end) log.

(** *** The builder *)

(** The triple returned by the file-enumeration collaborator; a component
    can be [None]. *)
Definition FileLists : Type :=
  (option (list FileRecord) * option (list FileRecord) *
   option (list FileRecord))%type.

Definition LoadersAndDatasets : Type :=
  ((option DataLoader * DataLoader * DataLoader) *
   (option CacheDataset * CacheDataset * CacheDataset))%type.

Section Collaborators.

(** [sade.datasets.filenames.get_image_files_list(dataset_name,
    dataset_dir, splits_dir)], not part of the sources at hand: any
    function of its three arguments. *)
Variable get_image_files_list : string -> string -> string -> FileLists.

(** [os.path.exists] and [os.path.abspath]. *)
Variable path_exists : string -> bool.
Variable abspath : string -> string.

(** The library constructors can refuse their arguments: MONAI's
    [CacheDataset] loads and transforms the cached samples when it is
    constructed, and PyTorch's [DataLoader] validates its options (it raises
    [ValueError] for a negative [num_workers], for instance).  Which
    arguments they refuse is theirs to say: [CacheDataset_error ds] and
    [DataLoader_error dl] give the exception raised when the object would be
    [ds] or [dl], and [None] when the constructor returns it. *)
Variable CacheDataset_error : CacheDataset -> option string.
Variable DataLoader_error : DataLoader -> option string.

(** A call to the collaborator, recorded in the log. *)
Definition call_get_image_files_list (dataset_name dataset_dir splits_dir : string)
  : M FileLists :=
  emit (EvGetImageFilesList dataset_name dataset_dir splits_dir) ;;
  ret (get_image_files_list dataset_name dataset_dir splits_dir).

(** A call to the [CacheDataset] constructor: it raises, or it returns the
    dataset, which is then recorded in the log. *)
Definition new_CacheDataset (data : list FileRecord) (transform : Transform)
    (cache_rate : Q) (num_workers : Z) (progress : bool) : M CacheDataset :=
  let ds := mkCacheDataset data transform cache_rate num_workers progress in
  match CacheDataset_error ds with
  | Some what => raise (LibraryError what)
  | None =>
      emit (EvCacheDataset ds) ;;
      ret ds
  end.

(** A call to the [DataLoader] constructor: it raises, or it returns the
    loader, which is then recorded in the log. *)
Definition new_DataLoader (dl : DataLoader) : M DataLoader :=
  match DataLoader_error dl with
  | Some what => raise (LibraryError what)
  | None =>
      emit (EvDataLoader dl) ;;
      ret dl
  end.

(** [assert x is not None]; afterwards [x] is a list. *)
Definition assert_is_not_None {A} (x : option A) : M A :=
  match x with
  | Some a => ret a
  | None => raise (AssertionError None)
  end.

(** The expression [inf_sampler(ds) if infinite_sampler else None], where
    the local [inf_sampler] is bound only if line 34 assigned it. *)
Definition sampler_arg (inf_sampler : option (CacheDataset -> RandomSampler))
    (infinite_sampler : bool) (ds : CacheDataset) : M (option RandomSampler) :=
  if infinite_sampler then
    let* f := read_local "inf_sampler" inf_sampler in
    ret (Some (f ds))
  else ret None.

(** The locals assigned by lines 50-94: the three file lists and the
    test transform. *)
Definition Selection : Type :=
  (option (list FileRecord) * option (list FileRecord) *
   option (list FileRecord) * Transform)%type.

(** Lines 44-94 of [get_dataloaders]: the branch on the mode that selects
    the file lists and the test transform. *)
Definition select_file_lists (config : Config) (evaluation ood_eval : bool)
  : M Selection :=
  let splits_dir := splits_dir (data config) in
  let data_dir_path := dir_path (data config) in
  let dataset_name := dataset (data config) in

  let train_file_list : option (list FileRecord) := None in
  let test_transform := get_val_transform config in

  if ood_eval then
    (* We will only return inlier and ood samples *)
    let train_file_list : option (list FileRecord) := None in
    let ood_dataset_name := lower (ood_ds (data config)) in
    let* (test_file_list, test_transform) :=
      if contains "lesion" ood_dataset_name then
        let dirname :=
          "slicer_lesions/" ++ ood_dataset_name ++ "/" ++ dataset_name in
        let ood_dir_path := abspath (data_dir_path ++ "/..") in
        let ood_dir_path := ood_dir_path ++ "/" ++ dirname in
        print ("Loading ood samples from " ++ ood_dir_path) ;;
        assert_ (path_exists ood_dir_path)
          (Some (ood_dir_path ++ " does not exist")) ;;
        (* Getting lesion samples *)
        let* (_, _, test_file_list) :=
          call_get_image_files_list ood_dataset_name ood_dir_path splits_dir in
        (* lesions will be loaded alongside label masks *)
        ret (test_file_list, get_lesion_transform config)
      else if String.eqb ood_dataset_name "tumor" then
        let* (_, _, test_file_list) :=
          call_get_image_files_list dataset_name data_dir_path splits_dir in
        ret (test_file_list, get_tumor_transform config)
      else (* image-only ood dataset *)
        let* (_, _, test_file_list) :=
          call_get_image_files_list dataset_name data_dir_path splits_dir in
        ret (test_file_list, test_transform)
    in
    (* Inlier samples will be the val/test set of the main dataset *)
    let* (_, _, val_file_list) :=
      call_get_image_files_list dataset_name data_dir_path splits_dir in
    ret (train_file_list, val_file_list, test_file_list, test_transform)
  else if evaluation then
    let* (_, val_file_list, test_file_list) :=
      call_get_image_files_list dataset_name data_dir_path splits_dir in
    ret (train_file_list, val_file_list, test_file_list, test_transform)
  else (* Training data *)
    let* (train_file_list, val_file_list, test_file_list) :=
      call_get_image_files_list dataset_name data_dir_path splits_dir in
    ret (train_file_list, val_file_list, test_file_list, test_transform).

(** The sanity checks of lines 40-41. *)
Definition sanity_checks (config : Config) : M unit :=
  assert_ (re_match ["abcd"; "ibis"] (lower (dataset (data config)))) None ;;
  assert_ (re_match ["tumor"; "lesion"; "ds-sa"] (lower (ood_ds (data config))))
    None.

Definition get_dataloaders (config : Config) (evaluation ood_eval : bool)
    (num_workers : Z) (infinite_sampler : bool) : M LoadersAndDatasets :=
  let inf_sampler :=
    if infinite_sampler then Some partial_RandomSampler else None in

  (* Sanity checks *)
  sanity_checks config ;;

  let cache_rate := cache_rate (data config) in

  let train_transform := get_train_transform config in
  let val_transform := get_val_transform config in

  let* (train_file_list, val_file_list, test_file_list, test_transform) :=
    select_file_lists config evaluation ood_eval in

  let* val_file_list := assert_is_not_None val_file_list in
  let* test_file_list := assert_is_not_None test_file_list in

  let* train_ds :=
    match train_file_list with
    | Some train_file_list =>
        let* ds := new_CacheDataset train_file_list train_transform
                     cache_rate num_workers true in
        ret (Some ds)
    | None => ret None
    end in

  let* eval_ds :=
    new_CacheDataset val_file_list val_transform cache_rate num_workers true in

  (* Note: Will be an ood dataset if ood_eval==True *)
  let* test_ds :=
    new_CacheDataset test_file_list test_transform cache_rate num_workers true in

  (* Get data loaders *)
  let* train_loader :=
    (* if train_ds: *)
    match train_ds with
    | Some ds =>
        if ds_truthy ds then
          let* sampler := sampler_arg inf_sampler infinite_sampler ds in
          let* dl :=
            new_DataLoader
              {| dl_dataset := ds;
                 batch_size := training_batch_size config;
                 shuffle := None;
                 dl_num_workers := num_workers;
                 pin_memory := true;
                 prefetch_factor := Some 2;
                 persistent_workers := Some (num_workers >? 0)%Z;
                 sampler := sampler |} in
          ret (Some dl)
        else ret None
    | None => ret None
    end in

  let* sampler := sampler_arg inf_sampler infinite_sampler eval_ds in
  let* eval_loader :=
    new_DataLoader
      {| dl_dataset := eval_ds;
         batch_size := eval_batch_size config;
         shuffle := Some false;
         dl_num_workers := num_workers;
         pin_memory := (num_workers >? 0)%Z;
         prefetch_factor := None;
         persistent_workers := None;
         sampler := sampler |} in

  let* sampler := sampler_arg inf_sampler infinite_sampler test_ds in
  let* test_loader :=
    new_DataLoader
      {| dl_dataset := test_ds;
         batch_size := eval_batch_size config;
         shuffle := Some false;
         dl_num_workers := num_workers;
         pin_memory := (num_workers >? 0)%Z;
         prefetch_factor := None;
         persistent_workers := None;
         sampler := sampler |} in

  let dataloaders := (train_loader, eval_loader, test_loader) in
  let datasets := (train_ds, eval_ds, test_ds) in

  ret (dataloaders, datasets).

End Collaborators.

(** *** Vocabulary for the properties *)

(** The components of the collaborator's triple. *)
Definition train_split (fl : FileLists) : option (list FileRecord) := fl.1.1.
Definition val_split (fl : FileLists) : option (list FileRecord) := fl.1.2.
Definition test_split (fl : FileLists) : option (list FileRecord) := fl.2.

(** The components of the returned pair of triples. *)
Definition train_loader (r : LoadersAndDatasets) : option DataLoader := r.1.1.1.
Definition eval_loader (r : LoadersAndDatasets) : DataLoader := r.1.1.2.
Definition test_loader (r : LoadersAndDatasets) : DataLoader := r.1.2.
Definition train_ds (r : LoadersAndDatasets) : option CacheDataset := r.2.1.1.
Definition eval_ds (r : LoadersAndDatasets) : CacheDataset := r.2.1.2.
Definition test_ds (r : LoadersAndDatasets) : CacheDataset := r.2.2.

(** The loader settings, as the specification describes them: the sampler
    is the unbounded one with replacement when infinite sampling is
    requested and absent otherwise; the training loader has the training
    batch size, pinned memory, prefetch depth 2 and persistent workers when
    the worker count is positive; the evaluation and test loaders have the
    evaluation batch size, no shuffling, and pinned memory when the worker
    count is positive. *)
Definition expected_sampler (infinite_sampler : bool) (ds : CacheDataset)
  : option RandomSampler :=
  if infinite_sampler then Some (mkRandomSampler ds true int_1e100) else None.

Definition expected_train_loader (config : Config) (num_workers : Z)
    (infinite_sampler : bool) (ds : CacheDataset) : DataLoader :=
  {| dl_dataset := ds;
     batch_size := training_batch_size config;
     shuffle := None;
     dl_num_workers := num_workers;
     pin_memory := true;
     prefetch_factor := Some 2;
     persistent_workers := Some (num_workers >? 0)%Z;
     sampler := expected_sampler infinite_sampler ds |}.

Definition expected_eval_loader (config : Config) (num_workers : Z)
    (infinite_sampler : bool) (ds : CacheDataset) : DataLoader :=
  {| dl_dataset := ds;
     batch_size := eval_batch_size config;
     shuffle := Some false;
     dl_num_workers := num_workers;
     pin_memory := (num_workers >? 0)%Z;
     prefetch_factor := None;
     persistent_workers := None;
     sampler := expected_sampler infinite_sampler ds |}.

(** Both configured names pass the sanity checks. *)
Definition names_ok (config : Config) : bool :=
  re_match ["abcd"; "ibis"] (lower (dataset (data config))) &&
  re_match ["tumor"; "lesion"; "ds-sa"] (lower (ood_ds (data config))).

(** The constructor calls in a log, datasets and loaders in the order they
    were made. *)
Definition constructions (log : list Event) : list Event :=
  List.filter (λ ev, match ev with
                     | EvCacheDataset _ | EvDataLoader _ => true
                     | _ => false
                     end) log.

(** The directory of lesion samples computed at lines 63-65. *)
Definition lesion_dir (abspath : string -> string) (config : Config) : string :=
  abspath (dir_path (data config) ++ "/..") ++ "/" ++
  ("slicer_lesions/" ++ lower (ood_ds (data config)) ++ "/" ++
   dataset (data config)).

(** *** Sample inputs, used in examples *)

Definition f1 : FileRecord := mkFileRecord "sub-01_T1w.nii.gz" None.
Definition f2 : FileRecord := mkFileRecord "sub-02_T1w.nii.gz" None.
Definition f3 : FileRecord := mkFileRecord "sub-03_T1w.nii.gz" None.
Definition f4 : FileRecord := mkFileRecord "sub-04_T1w.nii.gz" None.
Definition f5 : FileRecord :=
  mkFileRecord "sub-05_T1w.nii.gz" (Some "sub-05_label.nii.gz").

Definition sample_config (dataset_name ood_name : string) : Config :=
  {| data := {| dataset := dataset_name;
                ood_ds := ood_name;
                splits_dir := "/splits";
                dir_path := "/data/abcd";
                cache_rate := 1%Q |};
     training_batch_size := 4;
     eval_batch_size := 2 |}.

(** A collaborator with three distinct, non-empty splits for the primary
    data directory and lesion samples elsewhere. *)
Definition sample_files (dataset_name dataset_dir splits_dir : string) : FileLists :=
  if String.eqb dataset_dir "/data/abcd"
  then (Some [f1; f2], Some [f3], Some [f4])
  else (None, None, Some [f5]).

(** Collaborators whose training split is absent, or empty. *)
Definition no_train_files (dataset_name dataset_dir splits_dir : string) : FileLists :=
  (None, Some [f3], Some [f4]).

Definition empty_train_files (dataset_name dataset_dir splits_dir : string) : FileLists :=
  (Some [], Some [f3], Some [f4]).

(** A collaborator whose validation and test splits are empty lists. *)
Definition empty_eval_files (dataset_name dataset_dir splits_dir : string) : FileLists :=
  (Some [f1], Some [], Some []).

(** A collaborator that knows test samples only. *)
Definition test_only_files (dataset_name dataset_dir splits_dir : string) : FileLists :=
  (None, None, Some [f5]).

Definition sample_abspath (path : string) : string :=
  if String.eqb path "/data/abcd/.." then "/data" else path.

Definition everything_exists (path : string) : bool := true.
Definition nothing_exists (path : string) : bool := false.

(** A [CacheDataset] constructor that accepts every argument. *)
Definition accept_datasets (ds : CacheDataset) : option string := None.

(** A [DataLoader] constructor with the two checks of PyTorch's that depend
    on the worker count: [num_workers] must not be negative, and
    [prefetch_factor] may be given only with [num_workers > 0]. *)
Definition sample_DataLoader_error (dl : DataLoader) : option string :=
  if (dl_num_workers dl <? 0)%Z then
    Some "ValueError: num_workers option should be non-negative"
  else if (dl_num_workers dl =? 0)%Z && bool_decide (is_Some (prefetch_factor dl))
  then
    Some "ValueError: prefetch_factor option could only be specified in multiprocessing"
  else None.

End Loaders.

(** * Properties *)

(** ** Python strings *)

Example lower_ascii : PyStr.lower "ABCD-Study_01" = "abcd-study_01".
Proof. reflexivity. Qed.

Example contains_infix :
  PyStr.contains "lesion" "tumor_lesion_load" = true ∧
  PyStr.contains "lesion" "tumor" = false.
Proof. split; reflexivity. Qed.

(** [re.match] looks at the start of the string only. *)
Example re_match_anchors_at_start :
  PyStr.re_match ["abcd"; "ibis"] "abcd-v2" = true ∧
  PyStr.re_match ["abcd"; "ibis"] "my-abcd" = false ∧
  PyStr.re_match ["tumor"; "lesion"; "ds-sa"] "ds-sa" = true.
Proof. repeat split; reflexivity. Qed.

(** ** The flow configuration *)

Section FlowConfigProperties.

Import FlowConfig.

Variable lib : TypeSafety.

Lemma is_prefix_cons_eq a (p q : list string) :
  is_prefix (a :: p) (a :: q) = is_prefix p q.
Proof. cbn. by rewrite String.eqb_refl. Qed.

Lemma is_prefix_app_l (f x p : list string) :
  is_prefix f p = false → is_prefix (f ++ x) p = false.
Proof.
  revert p. induction f as [|a f IH]; intros [|b p]; cbn; try done.
  destruct (String.eqb a b); cbn; auto.
Qed.

Lemma is_prefix_app_r (f x p : list string) :
  is_prefix f p = false → is_prefix p f = false →
  is_prefix p (f ++ x) = false.
Proof.
  revert p. induction f as [|a f IH]; intros [|b p]; cbn; try done.
  destruct (String.eqb_spec a b) as [->|Hne]; cbn.
  - rewrite String.eqb_refl. cbn. auto.
  - destruct (String.eqb_spec b a) as [->|]; done.
Qed.

(** A path apart from a field is apart from everything inside the field. *)
Lemma apart_app (f x p : list string) :
  apart f p = true → apart (f ++ x) p = true.
Proof.
  unfold apart. rewrite !andb_true_iff, !negb_true_iff. intros [H1 H2].
  split; [by apply is_prefix_app_l | by apply is_prefix_app_r].
Qed.

Lemma apart_cons_eq a (f p : list string) :
  apart (a :: f) (a :: p) = apart f p.
Proof. unfold apart. by rewrite !is_prefix_cons_eq. Qed.

Lemma same_kind_refl v : same_kind v v = true.
Proof. by destruct v. Qed.

(** *** Reading fields *)

Lemma field_view_nil locked type_safe fields name :
  field_view (ConfigDict locked type_safe fields) [] name
    = Some (locked, type_safe, fields !! name).
Proof. done. Qed.

Lemma field_view_cons locked type_safe fields k ps name :
  field_view (ConfigDict locked type_safe fields) (k :: ps) name
    = match fields !! k with
      | Some sub => field_view sub ps name
      | None => None
      end.
Proof. unfold field_view. cbn. by destruct (fields !! k). Qed.

Lemma field_view_not_dict obj path name :
  (∀ locked type_safe fields, obj ≠ ConfigDict locked type_safe fields) →
  field_view obj path name = None.
Proof.
  intros H. destruct obj; try by destruct path.
  by edestruct H.
Qed.

(** A field that is seen to hold [w] reads as [w]. *)
Lemma field_view_read path : ∀ obj name locked type_safe w,
  field_view obj path name = Some (locked, type_safe, Some w) →
  getattr_path obj (path ++ [name]) = Some w.
Proof.
  induction path as [|q qs IH]; intros obj name lk ts w H;
    destruct obj as [| | | | |lk0 ts0 m]; try done.
  - rewrite field_view_nil in H. cbn. injection H as _ _ ->. done.
  - rewrite field_view_cons in H. cbn [app getattr_path].
    destruct (m !! q) as [sub|]; [|done]. by eapply IH.
Qed.

Lemma read_field_view path : ∀ obj name w,
  getattr_path obj (path ++ [name]) = Some w →
  ∃ locked type_safe,
    field_view obj path name = Some (locked, type_safe, Some w).
Proof.
  induction path as [|q qs IH]; intros obj name w H;
    destruct obj as [| | | | |lk0 ts0 m]; try done.
  - cbn in H. rewrite field_view_nil. exists lk0, ts0.
    destruct (m !! name); [|done]. by injection H as ->.
  - cbn [app getattr_path] in H. rewrite field_view_cons.
    destruct (m !! q) as [sub|]; [|done]. by apply IH.
Qed.

Lemma field_view_dict obj path name locked type_safe old :
  field_view obj path name = Some (locked, type_safe, old) →
  ∃ fields, getattr_path obj path = Some (ConfigDict locked type_safe fields) ∧
            old = fields !! name.
Proof.
  unfold field_view. destruct (getattr_path obj path) as [[| | | | |lk ts m]|];
    try done.
  intros [= -> -> <-]. by exists m.
Qed.

Lemma getattr_of_path obj name v :
  getattr_path obj [name] = Some v → getattr obj name = inr v.
Proof.
  destruct obj as [| | | | |lk ts m]; try done. cbn.
  by destruct (m !! name) as [w|]; [intros [= ->]|].
Qed.

Lemma getattr_missing obj name :
  getattr_path obj [name] = None → getattr obj name = inl (AttributeError name).
Proof.
  destruct obj as [| | | | |lk ts m]; try done. cbn.
  by destruct (m !! name).
Qed.

(** *** Storing a value under a field *)

(** Nothing apart from the field changes. *)
Lemma put_field_frame path : ∀ obj name w p,
  apart (path ++ [name]) p = true →
  getattr_path (put_field obj path name w) p = getattr_path obj p.
Proof.
  induction path as [|q qs IH]; intros obj name w p Hap;
    destruct obj as [| | | | |lk ts m]; try done.
  - destruct p as [|k ps]; [done|]. cbn.
    destruct (String.eqb_spec name k) as [->|Hne].
    + unfold apart in Hap. cbn in Hap. by rewrite String.eqb_refl in Hap.
    + by rewrite lookup_insert_ne.
  - cbn [put_field]. destruct (m !! q) as [sub|] eqn:Hq; [|done].
    destruct p as [|k ps]; [done|]. cbn [getattr_path].
    destruct (String.eqb_spec q k) as [->|Hne].
    + rewrite lookup_insert_eq, Hq. apply IH.
      cbn [app] in Hap. by rewrite apart_cons_eq in Hap.
    + by rewrite lookup_insert_ne.
Qed.

(** A field apart from the one assigned is met as before. *)
Lemma field_view_frame path : ∀ obj name w p n,
  apart (path ++ [name]) (p ++ [n]) = true →
  field_view (put_field obj path name w) p n = field_view obj p n.
Proof.
  induction path as [|q qs IH]; intros obj name w p n Hap;
    destruct obj as [| | | | |lk ts m]; try done.
  - cbn [put_field]. destruct p as [|k ps].
    + rewrite !field_view_nil.
      destruct (String.eqb_spec name n) as [->|Hne].
      * unfold apart in Hap. cbn in Hap. by rewrite String.eqb_refl in Hap.
      * by rewrite lookup_insert_ne.
    + rewrite !field_view_cons.
      destruct (String.eqb_spec name k) as [->|Hne].
      * unfold apart in Hap. cbn in Hap. by rewrite String.eqb_refl in Hap.
      * by rewrite lookup_insert_ne.
  - cbn [put_field]. destruct (m !! q) as [sub|] eqn:Hq; [|done].
    destruct p as [|k ps].
    + rewrite !field_view_nil.
      destruct (String.eqb_spec q n) as [->|Hne].
      * unfold apart in Hap. cbn in Hap. rewrite String.eqb_refl in Hap.
        cbn in Hap. by rewrite andb_false_r in Hap.
      * by rewrite lookup_insert_ne.
    + rewrite !field_view_cons.
      destruct (String.eqb_spec q k) as [->|Hne].
      * rewrite lookup_insert_eq, Hq. apply IH.
        cbn [app] in Hap. by rewrite apart_cons_eq in Hap.
      * by rewrite lookup_insert_ne.
Qed.

(** The field assigned holds the value stored; the flags of its dictionary
    are as before. *)
Lemma field_view_put path : ∀ obj name w locked type_safe old,
  field_view obj path name = Some (locked, type_safe, old) →
  field_view (put_field obj path name w) path name
    = Some (locked, type_safe, Some w).
Proof.
  induction path as [|q qs IH]; intros obj name w lk ts old H;
    destruct obj as [| | | | |lk0 ts0 m]; try done.
  - rewrite field_view_nil in H. injection H as -> -> _.
    cbn [put_field]. by rewrite field_view_nil, lookup_insert_eq.
  - rewrite field_view_cons in H. cbn [put_field].
    destruct (m !! q) as [sub|] eqn:Hq; [|done].
    rewrite field_view_cons, lookup_insert_eq. by eapply IH.
Qed.

(** The dictionary that holds the field has one more entry. *)
Lemma put_field_dict path : ∀ obj name w locked type_safe fields,
  getattr_path obj path = Some (ConfigDict locked type_safe fields) →
  getattr_path (put_field obj path name w) path
    = Some (ConfigDict locked type_safe (<[name := w]> fields)).
Proof.
  induction path as [|q qs IH]; intros obj name w lk ts f H;
    destruct obj as [| | | | |lk0 ts0 m]; try done.
  - cbn in H. by injection H as -> -> ->.
  - cbn [getattr_path] in H. cbn [put_field].
    destruct (m !! q) as [sub|] eqn:Hq; [|done].
    cbn [getattr_path]. rewrite lookup_insert_eq. by apply IH.
Qed.

(** Storing what the field holds changes nothing. *)
Lemma put_field_same path : ∀ obj name w,
  getattr_path obj (path ++ [name]) = Some w →
  put_field obj path name w = obj.
Proof.
  induction path as [|q qs IH]; intros obj name w H;
    destruct obj as [| | | | |lk0 ts0 m]; try done.
  - cbn in H |- *. destruct (m !! name) as [x|] eqn:Hn; [|done].
    injection H as ->. by rewrite insert_id.
  - cbn [app getattr_path] in H. cbn [put_field].
    destruct (m !! q) as [sub|] eqn:Hq; [|done].
    rewrite (IH _ _ _ H). by rewrite insert_id.
Qed.

(** Storing a dictionary and then a field inside it is storing the
    dictionary with that field. *)
Lemma put_field_nested path : ∀ obj name locked type_safe fields k v,
  put_field (put_field obj path name (ConfigDict locked type_safe fields))
            (path ++ [name]) k v
  = put_field obj path name (ConfigDict locked type_safe (<[k := v]> fields)).
Proof.
  induction path as [|q qs IH]; intros obj name lk ts f k v;
    destruct obj as [| | | | |lk0 ts0 m]; try done.
  - cbn. rewrite lookup_insert_eq. by rewrite insert_insert_eq.
  - cbn [app put_field]. destruct (m !! q) as [sub|] eqn:Hq.
    + cbn [put_field]. rewrite lookup_insert_eq, IH.
      by rewrite insert_insert_eq.
    + cbn [put_field]. by rewrite Hq.
Qed.

(** *** Assignments *)

Lemma accepts_inv obj path name v w :
  accepts lib obj path name v w →
  ∃ locked type_safe old,
    field_view obj path name = Some (locked, type_safe, old) ∧
    checked_value lib locked type_safe old name v = inr w.
Proof.
  unfold accepts, stored_by.
  destruct (field_view obj path name) as [[[lk ts] old]|]; [|done].
  destruct (checked_value lib lk ts old name v) as [|x] eqn:Hc; [done|].
  intros [= ->]. by exists lk, ts, old.
Qed.

Lemma accepts_intro obj path name v w locked type_safe old :
  field_view obj path name = Some (locked, type_safe, old) →
  checked_value lib locked type_safe old name v = inr w →
  accepts lib obj path name v w.
Proof. unfold accepts, stored_by. by intros -> ->. Qed.

(** An accepted assignment stores the value under the field. *)
Lemma setattr_at_accepts path : ∀ obj name v w,
  accepts lib obj path name v w →
  setattr_at lib obj path name v = inr (put_field obj path name w).
Proof.
  induction path as [|q qs IH]; intros obj name v w H;
    destruct obj as [| | | | |lk0 ts0 m]; try done.
  - apply accepts_inv in H as (lk & ts & old & Hv & Hc).
    rewrite field_view_nil in Hv. injection Hv as <- <- <-.
    cbn. by rewrite Hc.
  - unfold accepts, stored_by in H. rewrite field_view_cons in H.
    cbn [setattr_at getattr put_field].
    destruct (m !! q) as [sub|] eqn:Hq; [|done].
    cbn [bind]. by rewrite (IH sub name v w H).
Qed.

(** An assignment that succeeds was accepted. *)
Lemma setattr_at_inr path : ∀ obj name v obj',
  setattr_at lib obj path name v = inr obj' →
  ∃ w, accepts lib obj path name v w ∧ obj' = put_field obj path name w.
Proof.
  induction path as [|q qs IH]; intros obj name v obj' H;
    destruct obj as [| | | | |lk0 ts0 m]; try done.
  - cbn in H.
    destruct (checked_value lib lk0 ts0 (m !! name) name v) as [|w] eqn:Hc;
      [done|].
    cbn in H. injection H as <-. exists w. split; [|done].
    by eapply accepts_intro; [apply field_view_nil|].
  - cbn [setattr_at getattr] in H.
    destruct (m !! q) as [sub|] eqn:Hq; [|done]. cbn [bind] in H.
    destruct (setattr_at lib sub qs name v) as [|sub'] eqn:Hs; [done|].
    cbn in H. injection H as <-.
    destruct (IH _ _ _ _ Hs) as (w & Ha & ->). exists w. split.
    + unfold accepts, stored_by. by rewrite field_view_cons, Hq.
    + cbn [put_field]. by rewrite Hq.
Qed.

Lemma accepts_is_dict obj path name v w :
  accepts lib obj path name v w → is_dict_at obj path.
Proof.
  intros (lk & ts & old & Hv & _)%accepts_inv.
  apply field_view_dict in Hv as (f & Hf & _). by exists lk, ts, f.
Qed.

(** A new field of an unlocked dictionary holds the value assigned. *)
Lemma accepts_fresh obj path name v type_safe fields :
  getattr_path obj path = Some (ConfigDict false type_safe fields) →
  fields !! name = None →
  accepts lib obj path name v v.
Proof.
  intros Hd Hn. unfold accepts, stored_by, field_view. by rewrite Hd, Hn.
Qed.

(** A dictionary is stored as it is. *)
Lemma accepts_dict obj path name locked type_safe fields w :
  accepts lib obj path name (ConfigDict locked type_safe fields) w →
  w = ConfigDict locked type_safe fields.
Proof.
  intros (lk & ts & old & _ & Hc)%accepts_inv. unfold checked_value in Hc.
  destruct old as [o|].
  - destruct (safe_cast lib ts o _) as [x|] eqn:Hx; [|done].
    injection Hc as <-. by eapply dict_not_converted.
  - destruct lk; [done|]. by injection Hc as <-.
Qed.

(** A value of the field's own type, or assigned to a new field, is stored
    as it is. *)
Lemma accepts_same_kind obj path name v w :
  accepts lib obj path name v w →
  (∀ old, getattr_path obj (path ++ [name]) = Some old →
          same_kind old v = true) →
  w = v.
Proof.
  intros (lk & ts & old & Hv & Hc)%accepts_inv Hk. unfold checked_value in Hc.
  destruct old as [o|].
  - rewrite (same_kind_kept lib ts o v) in Hc; [by injection Hc|].
    apply Hk. by eapply field_view_read.
  - destruct lk; [done|]. by injection Hc as <-.
Qed.

(** After an accepted assignment the field is settled: it holds the value
    stored, and the same assignment would store it again. *)
Lemma accepts_settled obj path name v w :
  accepts lib obj path name v w →
  settled lib (put_field obj path name w) path name v w.
Proof.
  intros (lk & ts & old & Hv & Hc)%accepts_inv. exists lk, ts. split.
  - by eapply field_view_put.
  - unfold checked_value in Hc. destruct old as [o|].
    + destruct (safe_cast lib ts o v) as [x|] eqn:Hx; [|done].
      injection Hc as <-. by eapply recast_stable.
    + destruct lk; [done|]. injection Hc as <-.
      apply same_kind_kept, same_kind_refl.
Qed.

Lemma settled_frame path obj name w p n v x :
  apart (path ++ [name]) (p ++ [n]) = true →
  settled lib obj p n v x →
  settled lib (put_field obj path name w) p n v x.
Proof.
  intros Hap (lk & ts & Hv & Hc). exists lk, ts.
  by rewrite field_view_frame.
Qed.

Lemma settled_read obj path name v w :
  settled lib obj path name v w → getattr_path obj (path ++ [name]) = Some w.
Proof. intros (lk & ts & Hv & _). by eapply field_view_read. Qed.

Lemma settled_is_dict obj path name v w :
  settled lib obj path name v w → is_dict_at obj path.
Proof.
  intros (lk & ts & Hv & _).
  apply field_view_dict in Hv as (f & Hf & _). by exists lk, ts, f.
Qed.

(** Assigning to a settled field changes nothing. *)
Lemma setattr_at_settled obj path name v w :
  settled lib obj path name v w → setattr_at lib obj path name v = inr obj.
Proof.
  intros (lk & ts & Hv & Hc).
  rewrite (setattr_at_accepts path obj name v w).
  - f_equal. apply put_field_same. by eapply field_view_read.
  - eapply accepts_intro; [done|]. cbn. by rewrite Hc.
Qed.

(** A new field inside a dictionary that was just stored. *)
Lemma setattr_at_nested obj path name type_safe fields k v :
  is_dict_at obj path → fields !! k = None →
  setattr_at lib (put_field obj path name (ConfigDict false type_safe fields))
    (path ++ [name]) k v
  = inr (put_field obj path name
           (ConfigDict false type_safe (<[k := v]> fields))).
Proof.
  intros (lk & ts & f & Hd) Hk.
  rewrite (setattr_at_accepts _ _ _ _ v), put_field_nested; [done|].
  eapply accepts_fresh; [|done].
  eapply field_view_read, field_view_put.
  unfold field_view. by rewrite Hd.
Qed.

(** Assigning an empty dictionary and then three fields to it rebuilds a
    dictionary of those three fields that is already there. *)
Lemma patch_config_rebuilt cfg path name k1 v1 k2 v2 k3 v3 :
  k1 ≠ k2 → k1 ≠ k3 → k2 ≠ k3 →
  getattr_path cfg (path ++ [name])
    = Some (ConfigDict false true
              (<[k3 := v3]> (<[k2 := v2]> (<[k1 := v1]> ∅)))) →
  ∃ o1 o2 o3,
    setattr_at lib cfg path name new_ConfigDict = inr o1 ∧
    setattr_at lib o1 (path ++ [name]) k1 v1 = inr o2 ∧
    setattr_at lib o2 (path ++ [name]) k2 v2 = inr o3 ∧
    setattr_at lib o3 (path ++ [name]) k3 v3 = inr cfg.
Proof.
  intros H12 H13 H23 Hd.
  destruct (read_field_view _ _ _ _ Hd) as (lk & ts & Hv).
  assert (is_dict_at cfg path) as Hp.
  { apply field_view_dict in Hv as (f & Hf & _). by exists lk, ts, f. }
  eexists _, _, _. split; [|split; [|split]].
  - apply setattr_at_accepts. eapply accepts_intro; [done|]. cbn.
    by rewrite (same_kind_kept lib).
  - unfold new_ConfigDict. by apply setattr_at_nested.
  - apply setattr_at_nested; [done|]. by rewrite lookup_insert_ne.
  - rewrite setattr_at_nested; [|done|].
    + f_equal. by apply put_field_same.
    + by rewrite !lookup_insert_ne.
Qed.

(** *** The frame of a run *)

Lemma unchanged_outside_refl base : unchanged_outside [] base base.
Proof. by intros p _. Qed.

Lemma unchanged_outside_put fields base obj path name w :
  unchanged_outside fields base obj →
  unchanged_outside ((path ++ [name])%list :: fields) base
    (put_field obj path name w).
Proof.
  intros Hu p Hp. cbn in Hp. apply andb_true_iff in Hp as [Hp1 Hp2].
  rewrite put_field_frame; [|done]. by apply Hu.
Qed.

Lemma same_views_refl base : same_views [] base base.
Proof. by intros p n _. Qed.

Lemma same_views_put fields base obj path name w :
  same_views fields base obj →
  same_views ((path ++ [name])%list :: fields) base
    (put_field obj path name w).
Proof.
  intros Hu p n Hp. cbn in Hp. apply andb_true_iff in Hp as [Hp1 Hp2].
  rewrite field_view_frame; [|done]. by apply Hu.
Qed.

(** An assignment to a field that was not touched is accepted by the one
    configuration as it is by the other. *)
Lemma accepts_views fields base obj path name v w :
  same_views fields base obj →
  apart_from fields (path ++ [name]) = true →
  accepts lib base path name v w ↔ accepts lib obj path name v w.
Proof.
  intros Hv Hap. unfold accepts, stored_by. by rewrite (Hv _ _ Hap).
Qed.

(** The fields a run assigns, the ones inside the two patch
    configurations too, in the order a run is followed backwards. *)
Lemma apart_from_assigned_fields p :
  apart_from assigned_fields p = true →
  apart_from
    [ ["flow"; "global_patch_config"; "stride"];
      ["flow"; "global_patch_config"; "padding"];
      ["flow"; "global_patch_config"; "kernel_size"];
      ["flow"; "global_patch_config"];
      ["flow"; "local_patch_config"; "stride"];
      ["flow"; "local_patch_config"; "padding"];
      ["flow"; "local_patch_config"; "kernel_size"];
      ["flow"; "local_patch_config"];
      ["flow"; "training_kimg"]; ["flow"; "patches_per_train_step"];
      ["flow"; "patch_batch_size"]; ["flow"; "input_norm"];
      ["flow"; "global_embedding_size"]; ["flow"; "use_global_context"];
      ["flow"; "context_embedding_size"]; ["flow"; "num_blocks"];
      ["flow"; "base_distribution"];
      ["eval"; "batch_size"];
      ["training"; "use_fp16"]; ["training"; "log_freq"];
      ["training"; "batch_size"] ] p = true.
Proof.
  intros Hp. cbn [assigned_fields apart_from forallb] in Hp.
  repeat (apply andb_true_iff in Hp as [? Hp]). clear Hp.
  cbn [apart_from forallb].
  repeat (rewrite andb_true_iff; split);
    lazymatch goal with
    | |- true = true => reflexivity
    | H : apart ?f p = true |- apart ?f p = true => exact H
    | H : apart [?a; ?b] p = true |- apart [?a; ?b; ?c] p = true =>
        exact (apart_app [a; b] [c] p H)
    end.
Qed.

(** Carrying what is known about [c] across the assignment that stores [w]
    under [path.name]: a fact about something apart from the field is kept,
    the dictionary holding the field has one more entry, anything else is
    dropped. *)
Ltac carry_facts c path name w :=
  repeat match goal with
  | H : settled lib c ?p ?n ?v ?x |- _ =>
      first
        [ pose proof (settled_frame path c name w p n v x eq_refl H)
        | idtac ];
      clear H
  | H : getattr_path c ?q = ?X |- _ =>
      first
        [ pose proof (eq_trans (put_field_frame path c name w q eq_refl) H)
        | pose proof (put_field_dict path c name w _ _ _ H)
        | idtac ];
      clear H
  | H : unchanged_outside _ _ c |- _ =>
      pose proof (unchanged_outside_put _ _ _ path name w H); clear H
  | H : same_views _ _ c |- _ =>
      pose proof (same_views_put _ _ _ path name w H); clear H
  end.

(** One assignment of [get_config].  It is accepted either because the
    base configuration accepts it and the field was not touched since, or
    because the field is a new one of a dictionary assigned before. *)
Ltac assign :=
  lazymatch goal with
  | |- context [bind (setattr_at lib ?c ?path ?name ?v) _] =>
      let c' := fresh "config" in
      let HA := fresh "HA" in
      let HS := fresh "HS" in
      let Hc := fresh "Hc" in
      first
        [ lazymatch goal with
          | Hv : same_views _ _ c, Hb : accepts lib _ path name v _ |- _ =>
              pose proof (proj1 (accepts_views _ _ _ path name v _ Hv eq_refl) Hb)
                as HA
          end
        | lazymatch goal with
          | V : getattr_path c path = Some (ConfigDict false ?ts ?f) |- _ =>
              pose proof (accepts_fresh c path name v ts f V eq_refl) as HA
          end ];
      lazymatch type of HA with
      | accepts _ _ _ _ _ ?w =>
          rewrite (setattr_at_accepts path c name v w HA); cbn [bind];
          pose proof (accepts_settled _ _ _ _ _ HA) as HS;
          lazymatch v with
          | ConfigDict _ _ _ => pose proof (settled_read _ _ _ _ _ HS)
          | _ => idtac
          end;
          clear HA;
          carry_facts c path name w;
          cbn [app] in *;
          generalize dependent (put_field c path name w); intros c'; intros
      end
  end.

(** Reading [config.flow] in between. *)
Ltac read_flow :=
  lazymatch goal with
  | Hv : same_views _ _ ?c, Hb : accepts lib _ ["flow"] ?n ?v _
    |- context [bind (getattr ?c "flow") _] =>
      let lk := fresh in let ts := fresh in let f := fresh in
      let Hf := fresh in
      destruct (accepts_is_dict _ _ _ _ _
                  (proj1 (accepts_views _ _ _ ["flow"] n v _ Hv eq_refl) Hb))
        as (lk & ts & f & Hf);
      rewrite (getattr_of_path _ _ _ Hf); cbn [bind]; clear Hf
  end.

(** Taking the hypothesis on the base configuration apart. *)
Ltac open_accepted H :=
  let Hs := fresh "Hs" in
  let Hl := fresh "Hl" in
  let Hg := fresh "Hg" in
  destruct H as (Hs & [? Hl] & [? Hg]);
  unfold new_ConfigDict in Hl, Hg;
  pose proof (accepts_dict _ _ _ _ _ _ _ Hl); subst;
  pose proof (accepts_dict _ _ _ _ _ _ _ Hg); subst;
  unfold scalar_overrides in Hs;
  repeat match goal with
  | H : Forall2 _ (_ :: _) _ |- _ =>
      apply Forall2_cons_inv_l in H as (? & ? & ? & H & ->)
  | H : Forall2 _ [] _ |- _ => apply Forall2_nil_inv_l in H as ->
  end.

(** A run on a base configuration that accepts the assignments: every
    scalar field is settled on what was stored, the two patch
    configurations are in place, and nothing else has changed. *)
Lemma get_config_run base stored :
  overrides_accepted lib base stored →
  ∃ cfg, get_config lib base = inr cfg ∧
    Forall2 (λ '(path, name, v) w, settled lib cfg path name v w)
      scalar_overrides stored ∧
    getattr_path cfg ["flow"; "local_patch_config"] = Some local_patch_config ∧
    getattr_path cfg ["flow"; "global_patch_config"]
      = Some global_patch_config ∧
    unchanged_outside assigned_fields base cfg.
Proof.
  intros H. open_accepted H.
  pose proof (unchanged_outside_refl base) as Hu.
  pose proof (same_views_refl base) as Hv.
  unfold get_config, new_ConfigDict.
  do 4 assign. read_flow. do 17 assign.
  eexists. split; [reflexivity|]. split; [|split; [|split]].
  - unfold scalar_overrides. repeat (constructor; [assumption|]). constructor.
  - assumption.
  - assumption.
  - intros p Hp.
    lazymatch goal with Hu : unchanged_outside _ _ _ |- _ => apply Hu end.
    by apply apart_from_assigned_fields.
Qed.

(** C9, as amended.  Take a base configuration that accepts the assignments
    of [get_config]: [training], [eval] and [flow] are dictionaries, and each
    field assigned either passes the type check of [ml_collections], which
    settles what is stored, or is a new field of a section that is not
    locked.  Then [get_config] returns a configuration in which each of the
    thirteen scalar fields it assigns (the ones the specification lists and
    also [training.log_freq], [flow.base_distribution],
    [flow.use_global_context], [flow.input_norm], [flow.patch_batch_size],
    [flow.patches_per_train_step] and [flow.training_kimg]) holds what was
    stored for it, which is the value assigned when the field is new or
    held a value of that type; [flow.local_patch_config] and
    [flow.global_patch_config] are the two fresh dictionaries; and every
    path apart from these fifteen fields reads the same as in the base. *)
Theorem get_config_frame base stored :
  overrides_accepted lib base stored →
  ∃ cfg, get_config lib base = inr cfg ∧
    Forall2 (λ '(path, name, _) w, getattr_path cfg (path ++ [name]) = Some w)
      scalar_overrides stored ∧
    Forall2 (λ '(path, name, v) w,
               (∀ old, getattr_path base (path ++ [name]) = Some old →
                       same_kind old v = true) → w = v)
      scalar_overrides stored ∧
    getattr_path cfg ["flow"; "local_patch_config"] = Some local_patch_config ∧
    getattr_path cfg ["flow"; "global_patch_config"]
      = Some global_patch_config ∧
    unchanged_outside assigned_fields base cfg.
Proof.
  intros H.
  destruct (get_config_run base stored H) as (cfg & Hc & Hs & Hl & Hg & Hu).
  exists cfg. split; [done|]. split; [|split; [|done]].
  - eapply Forall2_impl; [exact Hs|].
    intros [[path name] v] w. apply settled_read.
  - destruct H as (Ha & _). eapply Forall2_impl; [exact Ha|].
    intros [[path name] v] w. apply accepts_same_kind.
Qed.

(** *** Failure, and running [get_config] again *)

(** One assignment of a run that returned: it was accepted, and by the base
    configuration too when the field is one of its own. *)
Ltac invert_assign H :=
  lazymatch type of H with
  | bind (setattr_at lib ?c ?path ?name ?v) _ = inr _ =>
      let Hs := fresh "Hs" in
      let HA := fresh "HA" in
      let Hput := fresh "Hput" in
      let Hv' := fresh "Hv" in
      let w := fresh "w" in
      let c' := fresh "config" in
      destruct (setattr_at lib c path name v) as [|c'] eqn:Hs;
        [discriminate H|];
      cbn [bind] in H;
      apply setattr_at_inr in Hs as (w & HA & Hput);
      lazymatch goal with
      | Hv : same_views _ _ c |- _ =>
          first
            [ apply (proj2 (accepts_views _ _ _ path name v w Hv eq_refl))
                in HA
            | clear HA ];
          pose proof (same_views_put _ _ _ path name w Hv) as Hv';
          rewrite <- Hput in Hv'; cbn [app] in Hv'; clear Hv Hput
      end
  end.

(** A call that returns found a base configuration that accepts each of
    its assignments. *)
Lemma get_config_inv base cfg :
  get_config lib base = inr cfg → ∃ stored, overrides_accepted lib base stored.
Proof.
  unfold get_config. intros H.
  pose proof (same_views_refl base) as Hv.
  do 4 invert_assign H.
  lazymatch type of H with
  | bind (getattr ?c "flow") _ = inr _ =>
      destruct (getattr c "flow"); [discriminate H|]; cbn [bind] in H
  end.
  do 14 invert_assign H. clear H.
  eexists. split; [|split].
  - unfold scalar_overrides.
    repeat (constructor; [simpl; eassumption|]). constructor.
  - eexists; eassumption.
  - eexists; eassumption.
Qed.

(** The base configuration has the three sections when it accepts the
    assignments. *)
Lemma overrides_accepted_has_sections base stored :
  overrides_accepted lib base stored → has_sections base.
Proof.
  intros H. open_accepted H.
  repeat split; eapply accepts_is_dict; eassumption.
Qed.

(** X1.  [get_config] returns a configuration exactly when the base
    configuration accepts each of the fifteen assignments made to its
    sections; a call that returns found a dictionary under each of
    [training], [eval] and [flow]. *)
Theorem get_config_returns_iff_accepted base :
  ((∃ cfg, get_config lib base = inr cfg) ↔
   (∃ stored, overrides_accepted lib base stored)) ∧
  ((∃ cfg, get_config lib base = inr cfg) → has_sections base).
Proof.
  assert ((∃ cfg, get_config lib base = inr cfg) →
          ∃ stored, overrides_accepted lib base stored) as Hinv.
  { intros [cfg H]. by eapply get_config_inv. }
  split; [split; [done|]|].
  - intros [stored H].
    destruct (get_config_run base stored H) as (cfg & Hc & _). by exists cfg.
  - intros [stored H]%Hinv. by eapply overrides_accepted_has_sections.
Qed.

(** X2.  The error names the first section that is missing: [training]
    when the base has no [training]; [eval] when the three assignments to
    [training] are accepted and there is no [eval]; [flow] when the
    assignment to [eval] is accepted too and there is no [flow]. *)
Theorem get_config_names_missing_section base :
  (getattr_path base ["training"] = None →
     get_config lib base = inl (AttributeError "training")) ∧
  (∀ stored,
     Forall2 (λ '(path, name, v) w, accepts lib base path name v w)
       (take 3 scalar_overrides) stored →
     getattr_path base ["eval"] = None →
     get_config lib base = inl (AttributeError "eval")) ∧
  (∀ stored,
     Forall2 (λ '(path, name, v) w, accepts lib base path name v w)
       (take 4 scalar_overrides) stored →
     getattr_path base ["flow"] = None →
     get_config lib base = inl (AttributeError "flow")).
Proof.
  unfold get_config. split; [|split].
  - intros H. cbn [setattr_at]. by rewrite (getattr_missing _ _ H).
  - intros stored Hs He. unfold scalar_overrides in Hs. cbn [take] in Hs.
    repeat match goal with
    | H : Forall2 _ (_ :: _) _ |- _ =>
        apply Forall2_cons_inv_l in H as (? & ? & ? & H & ->)
    | H : Forall2 _ [] _ |- _ => apply Forall2_nil_inv_l in H as ->
    end.
    pose proof (same_views_refl base) as Hv.
    do 3 assign. cbn [setattr_at].
    lazymatch goal with
    | H : getattr_path _ ["eval"] = None |- _ =>
        by rewrite (getattr_missing _ _ H)
    end.
  - intros stored Hs He. unfold scalar_overrides in Hs. cbn [take] in Hs.
    repeat match goal with
    | H : Forall2 _ (_ :: _) _ |- _ =>
        apply Forall2_cons_inv_l in H as (? & ? & ? & H & ->)
    | H : Forall2 _ [] _ |- _ => apply Forall2_nil_inv_l in H as ->
    end.
    pose proof (same_views_refl base) as Hv.
    do 4 assign.
    lazymatch goal with
    | H : getattr_path _ ["flow"] = None |- _ =>
        by rewrite (getattr_missing _ _ H)
    end.
Qed.

(** X3.  [get_config] is idempotent: given its own result as the base, it
    returns that same configuration. *)
Theorem get_config_idempotent base cfg :
  get_config lib base = inr cfg → get_config lib cfg = inr cfg.
Proof.
  intros H.
  destruct (get_config_inv base cfg H) as [stored Ha].
  destruct (get_config_run base stored Ha) as (cfg' & Hc & Hs & Hl & Hg & _).
  rewrite H in Hc. injection Hc as <-. clear H Ha.
  unfold scalar_overrides in Hs.
  repeat match goal with
  | H : Forall2 _ (_ :: _) _ |- _ =>
      apply Forall2_cons_inv_l in H as (? & ? & ? & H & ->)
  | H : Forall2 _ [] _ |- _ => apply Forall2_nil_inv_l in H as ->
  end.
  unfold get_config.
  assert (∃ fl, getattr cfg "flow" = inr fl) as [fl Hfl].
  { lazymatch goal with
    | S : settled lib cfg ["flow"] "num_blocks" _ _ |- _ =>
        destruct (settled_is_dict _ _ _ _ _ S) as (lk & ts & f & Hf)
    end.
    eexists. by apply getattr_of_path. }
  repeat lazymatch goal with
  | S : settled lib cfg ?path ?name ?v ?w
    |- context [bind (setattr_at lib cfg ?path ?name ?v) _] =>
      rewrite (setattr_at_settled cfg path name v w S); cbn [bind]; clear S
  end.
  rewrite Hfl. cbn [bind].
  repeat lazymatch goal with
  | S : settled lib cfg ?path ?name ?v ?w
    |- context [bind (setattr_at lib cfg ?path ?name ?v) _] =>
      rewrite (setattr_at_settled cfg path name v w S); cbn [bind]; clear S
  end.
  (* the four assignments that rebuild a patch configuration *)
  unfold local_patch_config in Hl. unfold global_patch_config in Hg.
  destruct (patch_config_rebuilt cfg ["flow"] "local_patch_config"
              "kernel_size" (VInt 3) "padding" (VInt 1) "stride" (VInt 1))
    as (o1 & o2 & o3 & L1 & L2 & L3 & L4); [done..|].
  cbn [app] in L2, L3, L4.
  rewrite L1. cbn [bind]. rewrite L2. cbn [bind]. rewrite L3. cbn [bind].
  rewrite L4. cbn [bind].
  destruct (patch_config_rebuilt cfg ["flow"] "global_patch_config"
              "kernel_size" (VInt 17) "padding" (VInt 0) "stride" (VInt 8))
    as (p1 & p2 & p3 & G1 & G2 & G3 & G4); [done..|].
  cbn [app] in G2, G3, G4.
  rewrite G1. cbn [bind]. rewrite G2. cbn [bind]. rewrite G3. cbn [bind].
  by rewrite G4.
Qed.

End FlowConfigProperties.

(** The type check at work, with the sample cast. *)

(** A string under [training.batch_size] refuses the integer. *)
Example str_batch_size_is_refused :
  FlowConfig.get_config FlowConfig.strict
    (FlowConfig.base_with_training
       (<["batch_size" := FlowConfig.VStr "8"]> ∅))
  = inl (FlowConfig.TypeError "batch_size").
Proof. vm_compute. reflexivity. Qed.

(** A float under [training.log_freq] stays a float. *)
Example float_log_freq_stays_float :
  ∃ cfg,
    FlowConfig.get_config FlowConfig.strict
      (FlowConfig.base_with_training
         (<["log_freq" := FlowConfig.VFloat (inject_Z 50)]> ∅)) = inr cfg ∧
    FlowConfig.getattr_path cfg ["training"; "log_freq"]
      = Some (FlowConfig.VFloat (inject_Z 5)).
Proof. eexists. split; vm_compute; reflexivity. Qed.

(** A locked section refuses a field it does not have. *)
Example locked_section_refuses_new_field :
  FlowConfig.get_config FlowConfig.strict
    (FlowConfig.ConfigDict false true
       (<["training" := FlowConfig.ConfigDict true true
            (<["batch_size" := FlowConfig.VInt 8]>
             (<["log_freq" := FlowConfig.VInt 50]> ∅))]> ∅))
  = inl (FlowConfig.AttributeError "use_fp16").
Proof. vm_compute. reflexivity. Qed.

Lemma sample_base_accepted :
  FlowConfig.overrides_accepted FlowConfig.strict FlowConfig.sample_base
    FlowConfig.assigned_scalars.
Proof.
  split; [|split].
  - unfold FlowConfig.scalar_overrides, FlowConfig.assigned_scalars.
    cbn [map snd].
    repeat (constructor; [vm_compute; reflexivity|]). constructor.
  - eexists. vm_compute. reflexivity.
  - eexists. vm_compute. reflexivity.
Defined.

Lemma get_config_frame_witness :
  FlowConfig.overrides_accepted FlowConfig.strict FlowConfig.sample_base
    FlowConfig.assigned_scalars ∧
  ∃ cfg, FlowConfig.get_config FlowConfig.strict FlowConfig.sample_base
           = inr cfg ∧
    Forall2 (λ '(path, name, _) w,
               FlowConfig.getattr_path cfg (path ++ [name]) = Some w)
      FlowConfig.scalar_overrides FlowConfig.assigned_scalars ∧
    Forall2 (λ '(path, name, v) w,
               (∀ old, FlowConfig.getattr_path FlowConfig.sample_base
                         (path ++ [name]) = Some old →
                       FlowConfig.same_kind old v = true) → w = v)
      FlowConfig.scalar_overrides FlowConfig.assigned_scalars ∧
    FlowConfig.getattr_path cfg ["flow"; "local_patch_config"]
      = Some FlowConfig.local_patch_config ∧
    FlowConfig.getattr_path cfg ["flow"; "global_patch_config"]
      = Some FlowConfig.global_patch_config ∧
    FlowConfig.unchanged_outside FlowConfig.assigned_fields
      FlowConfig.sample_base cfg.
Proof.
  split; [exact sample_base_accepted|].
  exact (get_config_frame FlowConfig.strict FlowConfig.sample_base
           FlowConfig.assigned_scalars sample_base_accepted).
Defined.

(** C9, as stated, fails: with the fields the specification lists as the only
    ones overridden, [training.log_freq] would have to keep the value of the
    base configuration (50 in [sample_base]), but [get_config] sets it to 5. *)
Lemma get_config_changes_unlisted_field :
  FlowConfig.overrides_accepted FlowConfig.strict FlowConfig.sample_base
    FlowConfig.assigned_scalars ∧
  FlowConfig.apart_from FlowConfig.listed_fields ["training"; "log_freq"] = true ∧
  FlowConfig.getattr_path FlowConfig.sample_base ["training"; "log_freq"]
    = Some (FlowConfig.VInt 50) ∧
  ¬ ∃ cfg, FlowConfig.get_config FlowConfig.strict FlowConfig.sample_base
             = inr cfg ∧
           FlowConfig.unchanged_outside FlowConfig.listed_fields
             FlowConfig.sample_base cfg.
Proof.
  split; [exact sample_base_accepted|]. split; [reflexivity|].
  split; [vm_compute; reflexivity|].
  intros (cfg & Hcfg & Hu).
  specialize (Hu ["training"; "log_freq"] eq_refl).
  assert (Hv : match FlowConfig.get_config FlowConfig.strict
                       FlowConfig.sample_base with
               | inr c => FlowConfig.getattr_path c ["training"; "log_freq"]
               | inl _ => None
               end = Some (FlowConfig.VInt 5)) by (vm_compute; reflexivity).
  rewrite Hcfg, Hu in Hv. vm_compute in Hv. discriminate.
Qed.

(** ** Datasets and loaders *)

Section LoaderProperties.

Import Loaders PyStr.

(** Unfolding the builder and the monad, then reducing. *)
Ltac exec :=
  unfold run, get_dataloaders, sanity_checks, select_file_lists,
    call_get_image_files_list, new_CacheDataset, new_DataLoader,
    assert_is_not_None, sampler_arg, read_local, print, assert_, emit,
    bind, ret, raise, ds_truthy,
    train_loader, eval_loader, test_loader, train_ds, eval_ds, test_ds,
    train_split, val_split, test_split in *;
  cbn [app ds_data length Nat.eqb negb fst snd] in *.

(** The conditions the builder branches on: flags, tests on the configured
    names, and calls to the collaborators. *)
Ltac atomic b :=
  first
    [ is_var b
    | match b with
      | re_match _ _ => idtac
      | contains _ _ => idtac
      | String.eqb _ _ => idtac
      | ?f _ => is_var f
      | ?f _ _ _ => is_var f
      end ].

Ltac case_step :=
  match goal with
  | |- context [if negb (Nat.eqb (length ?l) 0) then _ else _] =>
      is_var l; destruct l
  | |- context [if ?b then _ else _] => atomic b; destruct b eqn:?
  | |- context [match ?x with _ => _ end] => atomic x; destruct x eqn:?
  end.

(** Running the builder symbolically along every path. *)
Ltac crunch := exec; repeat (case_step; exec).

Variable get_image_files_list : string → string → string → FileLists.
Variable path_exists : string → bool.
Variable abspath : string → string.
Variable CacheDataset_error : CacheDataset → option string.
Variable DataLoader_error : DataLoader → option string.

(** C1, as amended.  In every call with [ood_eval=True] that returns, the
    list the eval dataset is built from is the third (test) component of the
    triple the collaborator returns for the configured dataset name, data
    directory and splits directory, under the validation transform. *)
Theorem ood_eval_inliers_are_test_split config evaluation num_workers
    infinite_sampler r log :
  run (get_dataloaders get_image_files_list path_exists abspath
         CacheDataset_error DataLoader_error
         config evaluation true num_workers infinite_sampler)
    = (Returned r, log) →
  Some (ds_data (eval_ds r))
    = test_split (get_image_files_list (dataset (data config))
                    (dir_path (data config)) (splits_dir (data config))) ∧
  ds_transform (eval_ds r) = get_val_transform config.
Proof. crunch; intros; by simplify_eq. Qed.

(** C2, as amended.  When the names pass the sanity checks and lines 44-94
    resolve the file lists: if the validation or the test list is [None],
    the call raises [AssertionError] with nothing logged after the
    resolution, so before any dataset is constructed; and if the call
    returns, neither list is [None] and the eval and test datasets hold
    them.  (A list that is empty passes the assertions.) *)
Theorem val_and_test_lists_are_not_None config evaluation ood_eval
    num_workers infinite_sampler train_file_list val_file_list
    test_file_list test_transform log :
  names_ok config = true →
  run (select_file_lists get_image_files_list path_exists abspath
         config evaluation ood_eval)
    = (Returned (train_file_list, val_file_list, test_file_list,
                 test_transform), log) →
  (val_file_list = None ∨ test_file_list = None →
     run (get_dataloaders get_image_files_list path_exists abspath
            CacheDataset_error DataLoader_error
            config evaluation ood_eval num_workers infinite_sampler)
       = (Raised (AssertionError None), log) ∧
     datasets_built log = []) ∧
  (∀ r log',
     run (get_dataloaders get_image_files_list path_exists abspath
            CacheDataset_error DataLoader_error
            config evaluation ood_eval num_workers infinite_sampler)
       = (Returned r, log') →
     val_file_list = Some (ds_data (eval_ds r)) ∧
     test_file_list = Some (ds_data (test_ds r))).
Proof.
  unfold names_ok. intros [Hd Ho]%andb_true_iff. exec.
  rewrite Hd, Ho. clear Hd Ho.
  crunch; intros; simplify_eq; (split; [intros [?|?]|intros; simplify_eq]);
    by simplify_eq.
Qed.

(** C3, as amended.  In a call with [evaluation=False] and [ood_eval=False]
    whose names pass the sanity checks, the collaborator is invoked exactly
    once, with the configured dataset name, data directory and splits
    directory; and when the call returns, the training dataset is built from
    the collaborator's training list when that is not [None] and is null
    otherwise, and the training loader is non-null exactly when that list is
    neither [None] nor empty. *)
Theorem training_mode_enumerates_once config num_workers infinite_sampler :
  names_ok config = true →
  let files :=
    get_image_files_list (dataset (data config)) (dir_path (data config))
      (splits_dir (data config)) in
  let out :=
    run (get_dataloaders get_image_files_list path_exists abspath
           CacheDataset_error DataLoader_error
           config false false num_workers infinite_sampler) in
  enumerations out.2 =
    [(dataset (data config), dir_path (data config),
      splits_dir (data config))] ∧
  (∀ r, out.1 = Returned r →
     train_ds r =
       (λ l, mkCacheDataset l (get_train_transform config)
               (cache_rate (data config)) num_workers true)
         <$> train_split files ∧
     (train_loader r ≠ None ↔
        ∃ l, train_split files = Some l ∧ l ≠ [])).
Proof.
  unfold names_ok. intros [Hd Ho]%andb_true_iff. exec.
  rewrite Hd, Ho. clear Hd Ho.
  crunch; (split; [done|]);
    intros; simplify_eq; (split; [done|]);
    (split; [intros ?; by eauto | intros (? & ? & ?); by simplify_eq]).
Qed.

(** C4.  In every call with [ood_eval=True] that returns, when the lowered
    OOD name does not contain "lesion": the test dataset is built from the
    test list the collaborator returns for the primary dataset (the same
    list, so the same records in the same order); if the lowered OOD name is
    exactly "tumor" the test transform is the tumor transform; otherwise it
    is the validation transform, and neither the tumor nor the lesion
    transform. *)
Theorem ood_eval_without_lesions_uses_primary_test_split config evaluation
    num_workers infinite_sampler r log :
  contains "lesion" (lower (ood_ds (data config))) = false →
  run (get_dataloaders get_image_files_list path_exists abspath
         CacheDataset_error DataLoader_error
         config evaluation true num_workers infinite_sampler)
    = (Returned r, log) →
  Some (ds_data (test_ds r))
    = test_split (get_image_files_list (dataset (data config))
                    (dir_path (data config)) (splits_dir (data config))) ∧
  (lower (ood_ds (data config)) = "tumor" →
     ds_transform (test_ds r) = get_tumor_transform config) ∧
  (lower (ood_ds (data config)) ≠ "tumor" →
     ds_transform (test_ds r) = get_val_transform config ∧
     ds_transform (test_ds r) ≠ get_tumor_transform config ∧
     ds_transform (test_ds r) ≠ get_lesion_transform config).
Proof.
  intros Hl. exec. rewrite Hl.
  destruct (String.eqb_spec (lower (ood_ds (data config))) "tumor");
    crunch; intros; by simplify_eq.
Qed.

(** C5, as amended.  In a call with [ood_eval=True] whose names pass the
    sanity checks and whose lowered OOD name contains "lesion", let
    [ood_dir_path] be
    [abspath(data_dir_path/..)/slicer_lesions/<ood name>/<dataset name>].
    If that path does not exist, the call prints the diagnostic and then
    raises [AssertionError], with nothing else done.  If it exists, the
    collaborator is called on that directory and then on the primary one,
    and when the call returns the test dataset is built from the test list
    of the first of these calls, under the lesion transform. *)
Theorem lesion_ood_reads_lesion_directory config evaluation num_workers
    infinite_sampler :
  names_ok config = true →
  contains "lesion" (lower (ood_ds (data config))) = true →
  let ood_dir_path := lesion_dir abspath config in
  let out :=
    run (get_dataloaders get_image_files_list path_exists abspath
           CacheDataset_error DataLoader_error
           config evaluation true num_workers infinite_sampler) in
  (path_exists ood_dir_path = false →
     out = (Raised (AssertionError (Some (ood_dir_path ++ " does not exist"))),
            [EvPrint ("Loading ood samples from " ++ ood_dir_path)])) ∧
  (path_exists ood_dir_path = true →
     enumerations out.2 =
       [(lower (ood_ds (data config)), ood_dir_path, splits_dir (data config));
        (dataset (data config), dir_path (data config),
         splits_dir (data config))] ∧
     ∀ r, out.1 = Returned r →
       Some (ds_data (test_ds r))
         = test_split (get_image_files_list (lower (ood_ds (data config)))
                         ood_dir_path (splits_dir (data config))) ∧
       ds_transform (test_ds r) = get_lesion_transform config).
Proof.
  unfold names_ok, lesion_dir. intros [Hd Ho]%andb_true_iff Hl. exec.
  rewrite Hd, Ho, Hl. clear Hd Ho Hl.
  split; intros He; rewrite He; [done|].
  crunch; (split; [done|]); intros; by simplify_eq.
Qed.

(** C6.  If the lowered dataset name does not match [(abcd|ibis)], or the
    lowered OOD name does not match [(tumor|lesion|ds-sa)], the call raises
    [AssertionError] and its log is empty: nothing was enumerated, printed
    or constructed. *)
Theorem invalid_names_fail_before_enumeration config evaluation ood_eval
    num_workers infinite_sampler :
  re_match ["abcd"; "ibis"] (lower (dataset (data config))) = false ∨
  re_match ["tumor"; "lesion"; "ds-sa"] (lower (ood_ds (data config))) = false →
  run (get_dataloaders get_image_files_list path_exists abspath
         CacheDataset_error DataLoader_error
         config evaluation ood_eval num_workers infinite_sampler)
    = (Raised (AssertionError None), []).
Proof.
  exec. intros [H|H].
  - by rewrite H.
  - rewrite H. by case_step.
Qed.

(** C7.  A call with [evaluation=True] that returns has a null training
    loader and a null training dataset; and with [ood_eval=True] the value
    of [evaluation] makes no difference: the two calls are the same
    computation. *)
Theorem evaluation_has_no_training_artifacts config num_workers
    infinite_sampler :
  (∀ ood_eval r log,
     run (get_dataloaders get_image_files_list path_exists abspath
            CacheDataset_error DataLoader_error
            config true ood_eval num_workers infinite_sampler)
       = (Returned r, log) →
     train_loader r = None ∧ train_ds r = None) ∧
  get_dataloaders get_image_files_list path_exists abspath
    CacheDataset_error DataLoader_error
    config true true num_workers infinite_sampler
  = get_dataloaders get_image_files_list path_exists abspath
      CacheDataset_error DataLoader_error
      config false true num_workers infinite_sampler.
Proof.
  split; [|reflexivity].
  intros ood_eval r log. crunch; intros; by simplify_eq.
Qed.

(** C8.  In every call that returns: the training loader, when present, is
    over the training dataset with the training batch size, pinned memory,
    prefetch factor 2, persistent workers exactly when [num_workers > 0],
    no [shuffle] argument, and as sampler the [RandomSampler] with
    replacement and [int(1e100)] samples when [infinite_sampler] is set and
    [None] otherwise; the eval and test loaders are over the eval and test
    datasets with the eval batch size, [shuffle=False], pinned memory
    exactly when [num_workers > 0], and the same choice of sampler. *)
Theorem loaders_are_configured config evaluation ood_eval num_workers
    infinite_sampler r log :
  run (get_dataloaders get_image_files_list path_exists abspath
         CacheDataset_error DataLoader_error
         config evaluation ood_eval num_workers infinite_sampler)
    = (Returned r, log) →
  (∀ dl, train_loader r = Some dl →
     ∃ ds, train_ds r = Some ds ∧
           dl = expected_train_loader config num_workers infinite_sampler ds) ∧
  eval_loader r
    = expected_eval_loader config num_workers infinite_sampler (eval_ds r) ∧
  test_loader r
    = expected_eval_loader config num_workers infinite_sampler (test_ds r).
Proof.
  unfold expected_train_loader, expected_eval_loader, expected_sampler.
  crunch; intros; simplify_eq; cbn;
    (split; [intros; simplify_eq; by eauto | done]).
Qed.

(** C10.  With [infinite_sampler=False] the local [inf_sampler] is never
    bound, and still no call raises [UnboundLocalError]; every loader
    constructed, and every loader returned, has [sampler=None]. *)
Theorem no_sampler_without_infinite_sampling config evaluation ood_eval
    num_workers :
  let out :=
    run (get_dataloaders get_image_files_list path_exists abspath
           CacheDataset_error DataLoader_error
           config evaluation ood_eval num_workers false) in
  (∀ name, out.1 ≠ Raised (UnboundLocalError name)) ∧
  Forall (λ dl, sampler dl = None) (loaders_built out.2) ∧
  (∀ r, out.1 = Returned r →
     (∀ dl, train_loader r = Some dl → sampler dl = None) ∧
     sampler (eval_loader r) = None ∧ sampler (test_loader r) = None).
Proof.
  crunch; (split; [done|]); (split; [by repeat constructor|]);
    intros; simplify_eq; cbn; (split; [intros; by simplify_eq | done]).
Qed.

(** *** Further properties of the builder *)

(** X4.  Without [ood_eval], a call that returns made one call to the
    collaborator, for the primary dataset; its eval and test datasets hold
    the validation and test lists of that triple, both under the validation
    transform; and a training dataset exists only with [evaluation=False],
    holding the training list under the training transform. *)
Theorem in_distribution_modes_use_val_and_test_splits config evaluation
    num_workers infinite_sampler r log :
  run (get_dataloaders get_image_files_list path_exists abspath
         CacheDataset_error DataLoader_error
         config evaluation false num_workers infinite_sampler)
    = (Returned r, log) →
  let files :=
    get_image_files_list (dataset (data config)) (dir_path (data config))
      (splits_dir (data config)) in
  enumerations log =
    [(dataset (data config), dir_path (data config),
      splits_dir (data config))] ∧
  Some (ds_data (eval_ds r)) = val_split files ∧
  Some (ds_data (test_ds r)) = test_split files ∧
  ds_transform (eval_ds r) = get_val_transform config ∧
  ds_transform (test_ds r) = get_val_transform config ∧
  (∀ ds, train_ds r = Some ds →
     evaluation = false ∧
     Some (ds_data ds) = train_split files ∧
     ds_transform ds = get_train_transform config).
Proof.
  crunch; intros H; simplify_eq; cbn; do 5 (split; [done|]);
    intros ? [= <-]; done.
Qed.

(** X6.  In a call that returns, the constructor calls are, in this order:
    the training dataset if there is one, the eval dataset, the test
    dataset, the training loader if there is one, the eval loader, the test
    loader; and they are the objects returned.  So every dataset is built
    before any loader, and nothing is built that is not returned. *)
Theorem constructions_are_the_returned_objects config evaluation ood_eval
    num_workers infinite_sampler r log :
  run (get_dataloaders get_image_files_list path_exists abspath
         CacheDataset_error DataLoader_error
         config evaluation ood_eval num_workers infinite_sampler)
    = (Returned r, log) →
  constructions log =
    ((EvCacheDataset <$> (option_list (train_ds r) ++ [eval_ds r; test_ds r]))
     ++ (EvDataLoader <$>
           (option_list (train_loader r) ++ [eval_loader r; test_loader r])))%list.
Proof.
  crunch; intros; by simplify_eq.
Qed.

(** X7.  Every dataset a call constructs gets the configured cache rate,
    the call's worker count and [progress=True]. *)
Theorem datasets_share_cache_settings config evaluation ood_eval num_workers
    infinite_sampler :
  Forall (λ ds, ds_cache_rate ds = cache_rate (data config) ∧
                ds_num_workers ds = num_workers ∧
                ds_progress ds = true)
    (datasets_built
       (run (get_dataloaders get_image_files_list path_exists abspath
               CacheDataset_error DataLoader_error
               config evaluation ood_eval num_workers infinite_sampler)).2).
Proof.
  crunch; by repeat constructor.
Qed.

(** X8.  With [ood_eval=True] and a lowered OOD name without "lesion", a
    call that returns has eval and test datasets over the same file list;
    and unless that name is exactly "tumor", the two datasets are equal and
    so are the two loaders: the inlier set and the OOD set are the same. *)
Theorem ood_without_lesions_reuses_the_inliers config evaluation num_workers
    infinite_sampler r log :
  contains "lesion" (lower (ood_ds (data config))) = false →
  run (get_dataloaders get_image_files_list path_exists abspath
         CacheDataset_error DataLoader_error
         config evaluation true num_workers infinite_sampler)
    = (Returned r, log) →
  ds_data (test_ds r) = ds_data (eval_ds r) ∧
  (lower (ood_ds (data config)) ≠ "tumor" →
     test_ds r = eval_ds r ∧ test_loader r = eval_loader r).
Proof.
  intros Hl. exec. rewrite Hl.
  destruct (String.eqb_spec (lower (ood_ds (data config))) "tumor");
    crunch; intros; by simplify_eq.
Qed.

(** X9.  With [ood_eval=True], names that pass the sanity checks and a
    lowered OOD name without "lesion", the collaborator is called exactly
    twice, both times for the primary dataset, and nothing is printed
    before. *)
Theorem ood_without_lesions_enumerates_primary_twice config evaluation
    num_workers infinite_sampler :
  names_ok config = true →
  contains "lesion" (lower (ood_ds (data config))) = false →
  let primary := EvGetImageFilesList (dataset (data config))
                   (dir_path (data config)) (splits_dir (data config)) in
  let out :=
    run (get_dataloaders get_image_files_list path_exists abspath
           CacheDataset_error DataLoader_error
           config evaluation true num_workers infinite_sampler) in
  take 2 out.2 = [primary; primary] ∧ length (enumerations out.2) = 2%nat.
Proof.
  unfold names_ok. intros [Hd Ho]%andb_true_iff Hl. exec.
  rewrite Hd, Ho, Hl. clear Hd Ho Hl.
  crunch; done.
Qed.

(** X10.  Unless [ood_eval] is set and the lowered OOD name contains
    "lesion", the call never looks at the file system: with any other
    [os.path.exists] and [os.path.abspath] it does the same and gives the
    same. *)
Theorem file_system_is_read_for_lesions_only config evaluation ood_eval
    num_workers infinite_sampler
    (path_exists' : string → bool) (abspath' : string → string) :
  ood_eval = false ∨ contains "lesion" (lower (ood_ds (data config))) = false →
  run (get_dataloaders get_image_files_list path_exists' abspath'
         CacheDataset_error DataLoader_error
         config evaluation ood_eval num_workers infinite_sampler)
  = run (get_dataloaders get_image_files_list path_exists abspath
           CacheDataset_error DataLoader_error
           config evaluation ood_eval num_workers infinite_sampler).
Proof.
  intros [->|Hl]; exec; [|rewrite Hl]; crunch; done.
Qed.

End LoaderProperties.

(** ** The properties at sample inputs *)

Import Loaders.

(** The model lets the library refuse: with a negative worker count the
    sample training call builds its three datasets and then fails in the
    first [DataLoader] constructor. *)
Example negative_worker_count_fails_in_the_loader :
  ∃ log,
    run (get_dataloaders sample_files everything_exists sample_abspath
           accept_datasets sample_DataLoader_error
           (sample_config "abcd" "tumor") false false (-1) false)
      = (Raised (LibraryError
                   "ValueError: num_workers option should be non-negative"),
         log) ∧
    length (datasets_built log) = 3%nat ∧ loaders_built log = [].
Proof. eexists. split; [vm_compute; reflexivity|]. split; reflexivity. Qed.

Lemma ood_eval_inliers_are_test_split_witness :
  ∃ r log,
    run (get_dataloaders sample_files everything_exists sample_abspath
           accept_datasets sample_DataLoader_error
           (sample_config "abcd" "tumor") false true 6 false)
      = (Returned r, log) ∧
    Some (ds_data (eval_ds r))
      = test_split (sample_files "abcd" "/data/abcd" "/splits") ∧
    ds_transform (eval_ds r) = get_val_transform (sample_config "abcd" "tumor").
Proof.
  eexists _, _. split; [vm_compute; reflexivity|].
  eapply (ood_eval_inliers_are_test_split sample_files everything_exists
            sample_abspath accept_datasets sample_DataLoader_error
            (sample_config "abcd" "tumor") false 6 false).
  vm_compute; reflexivity.
Defined.

(** C1, as stated, fails: in OOD mode the eval dataset of the sample call is
    built from [f4], the test split, while the second component of the
    collaborator's triple, the validation split, is [f3]. *)
Lemma ood_eval_inliers_are_not_val_split :
  ∃ r log,
    run (get_dataloaders sample_files everything_exists sample_abspath
           accept_datasets sample_DataLoader_error
           (sample_config "abcd" "tumor") false true 6 false)
      = (Returned r, log) ∧
    val_split (sample_files "abcd" "/data/abcd" "/splits") = Some [f3] ∧
    ds_data (eval_ds r) = [f4] ∧
    Some (ds_data (eval_ds r))
      ≠ val_split (sample_files "abcd" "/data/abcd" "/splits").
Proof.
  eexists _, _. split; [vm_compute; reflexivity|].
  split; [reflexivity|]. split; [reflexivity|].
  cbn. intros [=].
Qed.

Lemma val_and_test_lists_are_not_None_witness :
  names_ok (sample_config "abcd" "tumor") = true ∧
  run (select_file_lists test_only_files everything_exists sample_abspath
         (sample_config "abcd" "tumor") true false)
    = (Returned (None, None, Some [f5],
                 get_val_transform (sample_config "abcd" "tumor")),
       [EvGetImageFilesList "abcd" "/data/abcd" "/splits"]) ∧
  run (get_dataloaders test_only_files everything_exists sample_abspath
         accept_datasets sample_DataLoader_error
         (sample_config "abcd" "tumor") true false 6 false)
    = (Raised (AssertionError None),
       [EvGetImageFilesList "abcd" "/data/abcd" "/splits"]) ∧
  datasets_built [EvGetImageFilesList "abcd" "/data/abcd" "/splits"] = [].
Proof.
  split; [reflexivity|]. split; [reflexivity|].
  apply (proj1 (val_and_test_lists_are_not_None test_only_files
                  everything_exists sample_abspath
                  accept_datasets sample_DataLoader_error
                  (sample_config "abcd" "tumor") true false 6 false
                  None None (Some [f5])
                  (get_val_transform (sample_config "abcd" "tumor"))
                  [EvGetImageFilesList "abcd" "/data/abcd" "/splits"]
                  eq_refl eq_refl)).
  left; reflexivity.
Defined.

(** C2, as stated, fails: a collaborator whose validation and test lists are
    empty lists passes both assertions, and the call returns with empty eval
    and test datasets. *)
Lemma empty_lists_pass_the_assertions :
  names_ok (sample_config "abcd" "tumor") = true ∧
  run (select_file_lists empty_eval_files everything_exists sample_abspath
         (sample_config "abcd" "tumor") true false)
    = (Returned (None, Some [], Some [],
                 get_val_transform (sample_config "abcd" "tumor")),
       [EvGetImageFilesList "abcd" "/data/abcd" "/splits"]) ∧
  ∃ r log,
    run (get_dataloaders empty_eval_files everything_exists sample_abspath
           accept_datasets sample_DataLoader_error
           (sample_config "abcd" "tumor") true false 6 false)
      = (Returned r, log) ∧
    ds_data (eval_ds r) = [] ∧ ds_data (test_ds r) = [] ∧
    length (datasets_built log) = 2%nat.
Proof.
  split; [reflexivity|]. split; [reflexivity|].
  eexists _, _. split; [vm_compute; reflexivity|].
  repeat split; reflexivity.
Qed.

Lemma training_mode_enumerates_once_witness :
  names_ok (sample_config "abcd" "tumor") = true ∧
  ∃ r log,
    run (get_dataloaders sample_files everything_exists sample_abspath
           accept_datasets sample_DataLoader_error
           (sample_config "abcd" "tumor") false false 6 false)
      = (Returned r, log) ∧
    enumerations log = [("abcd", "/data/abcd", "/splits")] ∧
    train_ds r
      = Some (mkCacheDataset [f1; f2]
                (get_train_transform (sample_config "abcd" "tumor"))
                1 6 true) ∧
    train_loader r ≠ None.
Proof.
  split; [reflexivity|].
  eexists _, _. split; [vm_compute; reflexivity|].
  pose proof (training_mode_enumerates_once sample_files everything_exists
                sample_abspath accept_datasets sample_DataLoader_error
                (sample_config "abcd" "tumor") 6 false eq_refl) as H.
  cbv zeta in H. destruct H as [Henum Hret].
  split; [exact Henum|].
  destruct (Hret _ eq_refl) as [Hds Hloader].
  split; [exact Hds|].
  apply Hloader. exists [f1; f2]. split; [reflexivity | discriminate].
Defined.

(** C3, as stated, fails: in training mode, with names that pass the sanity
    checks, a collaborator with no training list gives a null training
    dataset and loader, and one with an empty training list gives a training
    dataset that is falsy and so a null training loader. *)
Lemma training_mode_without_training_artifacts :
  names_ok (sample_config "abcd" "tumor") = true ∧
  (∃ r log,
     run (get_dataloaders no_train_files everything_exists sample_abspath
            accept_datasets sample_DataLoader_error
            (sample_config "abcd" "tumor") false false 6 false)
       = (Returned r, log) ∧
     train_loader r = None ∧ train_ds r = None) ∧
  (∃ r log,
     run (get_dataloaders empty_train_files everything_exists sample_abspath
            accept_datasets sample_DataLoader_error
            (sample_config "abcd" "tumor") false false 6 false)
       = (Returned r, log) ∧
     train_loader r = None ∧ is_Some (train_ds r)).
Proof.
  split; [reflexivity|].
  split; eexists _, _; (split; [vm_compute; reflexivity|]);
    (split; [reflexivity|]); [reflexivity | by eexists].
Qed.

Lemma ood_eval_without_lesions_uses_primary_test_split_witness :
  (∃ r log,
     PyStr.contains "lesion" (PyStr.lower "Tumor") = false ∧
     run (get_dataloaders sample_files everything_exists sample_abspath
            accept_datasets sample_DataLoader_error
            (sample_config "abcd" "Tumor") false true 6 false)
       = (Returned r, log) ∧
     Some (ds_data (test_ds r)) = Some [f4] ∧
     ds_transform (test_ds r)
       = get_tumor_transform (sample_config "abcd" "Tumor")) ∧
  (∃ r log,
     PyStr.contains "lesion" (PyStr.lower "DS-SA") = false ∧
     PyStr.lower "DS-SA" ≠ "tumor" ∧
     run (get_dataloaders sample_files everything_exists sample_abspath
            accept_datasets sample_DataLoader_error
            (sample_config "ibis" "DS-SA") false true 6 false)
       = (Returned r, log) ∧
     Some (ds_data (test_ds r)) = Some [f4] ∧
     ds_transform (test_ds r)
       = get_val_transform (sample_config "ibis" "DS-SA")).
Proof.
  split.
  - eexists _, _. split; [reflexivity|]. split; [vm_compute; reflexivity|].
    pose proof (ood_eval_without_lesions_uses_primary_test_split sample_files
                  everything_exists sample_abspath
                  accept_datasets sample_DataLoader_error
                  (sample_config "abcd" "Tumor") false 6 false _ _
                  eq_refl eq_refl) as (Hdata & Htumor & _).
    split; [exact Hdata | exact (Htumor eq_refl)].
  - assert (Hne : PyStr.lower "DS-SA" ≠ "tumor") by (cbn; intros [=]).
    eexists _, _. split; [reflexivity|]. split; [exact Hne|].
    split; [vm_compute; reflexivity|].
    pose proof (ood_eval_without_lesions_uses_primary_test_split sample_files
                  everything_exists sample_abspath
                  accept_datasets sample_DataLoader_error
                  (sample_config "ibis" "DS-SA") false 6 false _ _
                  eq_refl eq_refl) as (Hdata & _ & Hother).
    split; [exact Hdata | exact (proj1 (Hother Hne))].
Defined.

Lemma lesion_ood_reads_lesion_directory_witness :
  names_ok (sample_config "ABCD" "Lesion_load_20") = true ∧
  PyStr.contains "lesion" (PyStr.lower "Lesion_load_20") = true ∧
  lesion_dir sample_abspath (sample_config "ABCD" "Lesion_load_20")
    = "/data/slicer_lesions/lesion_load_20/ABCD" ∧
  run (get_dataloaders sample_files nothing_exists sample_abspath
         accept_datasets sample_DataLoader_error
         (sample_config "ABCD" "Lesion_load_20") false true 6 false)
    = (Raised (AssertionError
                 (Some "/data/slicer_lesions/lesion_load_20/ABCD does not exist")),
       [EvPrint "Loading ood samples from /data/slicer_lesions/lesion_load_20/ABCD"]) ∧
  ∃ r log,
    run (get_dataloaders sample_files everything_exists sample_abspath
           accept_datasets sample_DataLoader_error
           (sample_config "ABCD" "Lesion_load_20") false true 6 false)
      = (Returned r, log) ∧
    enumerations log
      = [("lesion_load_20", "/data/slicer_lesions/lesion_load_20/ABCD",
          "/splits");
         ("ABCD", "/data/abcd", "/splits")] ∧
    Some (ds_data (test_ds r)) = Some [f5] ∧
    ds_transform (test_ds r)
      = get_lesion_transform (sample_config "ABCD" "Lesion_load_20").
Proof.
  split; [reflexivity|]. split; [reflexivity|]. split; [reflexivity|]. split.
  - exact (proj1 (lesion_ood_reads_lesion_directory sample_files nothing_exists
                    sample_abspath accept_datasets sample_DataLoader_error
                    (sample_config "ABCD" "Lesion_load_20")
                    false 6 false eq_refl eq_refl) eq_refl).
  - eexists _, _. split; [vm_compute; reflexivity|].
    pose proof (proj2 (lesion_ood_reads_lesion_directory sample_files
                         everything_exists sample_abspath
                         accept_datasets sample_DataLoader_error
                         (sample_config "ABCD" "Lesion_load_20")
                         false 6 false eq_refl eq_refl) eq_refl)
      as [Henum Hret].
    split; [exact Henum|]. exact (Hret _ eq_refl).
Defined.

(** C5, as stated, fails: the OOD name "my-lesion" contains "lesion" and its
    directory does not exist, but the name does not pass the sanity check of
    line 41, so the call fails there: no diagnostic is printed and no
    directory is looked at. *)
Lemma lesion_name_failing_sanity_check_prints_nothing :
  PyStr.contains "lesion" (PyStr.lower "my-lesion") = true ∧
  nothing_exists (lesion_dir sample_abspath (sample_config "abcd" "my-lesion"))
    = false ∧
  run (get_dataloaders sample_files nothing_exists sample_abspath
         accept_datasets sample_DataLoader_error
         (sample_config "abcd" "my-lesion") false true 6 false)
    = (Raised (AssertionError None), []) ∧
  (run (get_dataloaders sample_files nothing_exists sample_abspath
          accept_datasets sample_DataLoader_error
          (sample_config "abcd" "my-lesion") false true 6 false)).2
    ≠ [EvPrint ("Loading ood samples from " ++
                lesion_dir sample_abspath (sample_config "abcd" "my-lesion"))].
Proof.
  split; [reflexivity|]. split; [reflexivity|]. split; [reflexivity|].
  vm_compute. intros [=].
Qed.

Lemma invalid_names_fail_before_enumeration_witness :
  PyStr.re_match ["abcd"; "ibis"] (PyStr.lower "MNIST") = false ∧
  run (get_dataloaders sample_files everything_exists sample_abspath
         accept_datasets sample_DataLoader_error
         (sample_config "MNIST" "tumor") false false 6 false)
    = (Raised (AssertionError None), []).
Proof.
  split; [reflexivity|].
  exact (invalid_names_fail_before_enumeration sample_files everything_exists
           sample_abspath accept_datasets sample_DataLoader_error
           (sample_config "MNIST" "tumor") false false 6 false
           (or_introl eq_refl)).
Defined.

Lemma evaluation_has_no_training_artifacts_witness :
  ∃ r log,
    run (get_dataloaders sample_files everything_exists sample_abspath
           accept_datasets sample_DataLoader_error
           (sample_config "abcd" "tumor") true false 6 false)
      = (Returned r, log) ∧
    train_loader r = None ∧ train_ds r = None.
Proof.
  eexists _, _. split; [vm_compute; reflexivity|].
  eapply (proj1 (evaluation_has_no_training_artifacts sample_files
                   everything_exists sample_abspath
                   accept_datasets sample_DataLoader_error
                   (sample_config "abcd" "tumor") 6 false) false).
  vm_compute; reflexivity.
Defined.

Lemma loaders_are_configured_witness :
  ∃ r log ds,
    run (get_dataloaders sample_files everything_exists sample_abspath
           accept_datasets sample_DataLoader_error
           (sample_config "abcd" "tumor") false false 6 true)
      = (Returned r, log) ∧
    train_ds r = Some ds ∧
    train_loader r
      = Some (expected_train_loader (sample_config "abcd" "tumor") 6 true ds) ∧
    eval_loader r
      = expected_eval_loader (sample_config "abcd" "tumor") 6 true (eval_ds r) ∧
    test_loader r
      = expected_eval_loader (sample_config "abcd" "tumor") 6 true (test_ds r).
Proof.
  eexists _, _, _. split; [vm_compute; reflexivity|].
  split; [reflexivity|]. split; [reflexivity|].
  apply (loaders_are_configured sample_files everything_exists sample_abspath
           accept_datasets sample_DataLoader_error
           (sample_config "abcd" "tumor") false false 6 true _ _ eq_refl).
Defined.

(** ** The further properties at sample inputs *)

Lemma get_config_names_missing_section_witness :
  FlowConfig.get_config FlowConfig.strict (FlowConfig.ConfigDict false true ∅)
    = inl (FlowConfig.AttributeError "training") ∧
  FlowConfig.get_config FlowConfig.strict
    (FlowConfig.ConfigDict false true
       (<["training" := FlowConfig.new_ConfigDict]> ∅))
    = inl (FlowConfig.AttributeError "eval") ∧
  FlowConfig.get_config FlowConfig.strict
    (FlowConfig.ConfigDict false true
       (<["training" := FlowConfig.new_ConfigDict]>
          (<["eval" := FlowConfig.new_ConfigDict]> ∅)))
    = inl (FlowConfig.AttributeError "flow").
Proof.
  split; [|split].
  - apply (proj1 (get_config_names_missing_section FlowConfig.strict _)).
    reflexivity.
  - apply (proj1 (proj2 (get_config_names_missing_section FlowConfig.strict _))
             [FlowConfig.VInt 64; FlowConfig.VInt 5; FlowConfig.VBool true]).
    + repeat (constructor; [vm_compute; reflexivity|]). constructor.
    + vm_compute. reflexivity.
  - apply (proj2 (proj2 (get_config_names_missing_section FlowConfig.strict _))
             [FlowConfig.VInt 64; FlowConfig.VInt 5; FlowConfig.VBool true;
              FlowConfig.VInt 64]).
    + repeat (constructor; [vm_compute; reflexivity|]). constructor.
    + vm_compute. reflexivity.
Defined.

Lemma get_config_idempotent_witness :
  (∃ cfg, FlowConfig.get_config FlowConfig.strict FlowConfig.sample_base
            = inr cfg ∧
          FlowConfig.get_config FlowConfig.strict cfg = inr cfg) ∧
  (∃ cfg, FlowConfig.get_config FlowConfig.strict
            (FlowConfig.base_with_training
               (<["log_freq" := FlowConfig.VFloat (inject_Z 50)]> ∅))
            = inr cfg ∧
          FlowConfig.getattr_path cfg ["training"; "log_freq"]
            = Some (FlowConfig.VFloat (inject_Z 5)) ∧
          FlowConfig.get_config FlowConfig.strict cfg = inr cfg).
Proof.
  split.
  - eexists. split; [vm_compute; reflexivity|].
    apply (get_config_idempotent FlowConfig.strict FlowConfig.sample_base).
    vm_compute; reflexivity.
  - eexists. split; [vm_compute; reflexivity|].
    split; [vm_compute; reflexivity|].
    apply (get_config_idempotent FlowConfig.strict
             (FlowConfig.base_with_training
                (<["log_freq" := FlowConfig.VFloat (inject_Z 50)]> ∅))).
    vm_compute; reflexivity.
Defined.

Lemma in_distribution_modes_use_val_and_test_splits_witness :
  ∃ r log,
    run (get_dataloaders sample_files everything_exists sample_abspath
           accept_datasets sample_DataLoader_error
           (sample_config "abcd" "tumor") true false 6 false)
      = (Returned r, log) ∧
    enumerations log = [("abcd", "/data/abcd", "/splits")] ∧
    Some (ds_data (eval_ds r))
      = val_split (sample_files "abcd" "/data/abcd" "/splits") ∧
    Some (ds_data (test_ds r))
      = test_split (sample_files "abcd" "/data/abcd" "/splits").
Proof.
  eexists _, _. split; [vm_compute; reflexivity|].
  pose proof (in_distribution_modes_use_val_and_test_splits sample_files
                everything_exists sample_abspath
                accept_datasets sample_DataLoader_error
                (sample_config "abcd" "tumor") true 6 false _ _ eq_refl)
    as (He & Hv & Ht & _).
  split; [exact He|]. split; [exact Hv | exact Ht].
Defined.

Lemma constructions_are_the_returned_objects_witness :
  ∃ r log,
    run (get_dataloaders sample_files everything_exists sample_abspath
           accept_datasets sample_DataLoader_error
           (sample_config "abcd" "tumor") false false 6 false)
      = (Returned r, log) ∧
    length (constructions log) = 6%nat ∧
    constructions log =
      ((EvCacheDataset <$> (option_list (train_ds r) ++ [eval_ds r; test_ds r]))
       ++ (EvDataLoader <$>
             (option_list (train_loader r)
                ++ [eval_loader r; test_loader r])))%list.
Proof.
  eexists _, _. split; [vm_compute; reflexivity|]. split; [reflexivity|].
  apply (constructions_are_the_returned_objects sample_files
           everything_exists sample_abspath
           accept_datasets sample_DataLoader_error
           (sample_config "abcd" "tumor") false false 6 false).
  vm_compute; reflexivity.
Defined.

Lemma ood_without_lesions_reuses_the_inliers_witness :
  ∃ r log,
    PyStr.contains "lesion" (PyStr.lower "DS-SA") = false ∧
    PyStr.lower "DS-SA" ≠ "tumor" ∧
    run (get_dataloaders sample_files everything_exists sample_abspath
           accept_datasets sample_DataLoader_error
           (sample_config "ibis" "DS-SA") false true 6 false)
      = (Returned r, log) ∧
    test_ds r = eval_ds r ∧ test_loader r = eval_loader r.
Proof.
  eexists _, _. split; [reflexivity|].
  assert (Hne : PyStr.lower "DS-SA" ≠ "tumor") by (cbn; intros [=]).
  split; [exact Hne|]. split; [vm_compute; reflexivity|].
  exact (proj2 (ood_without_lesions_reuses_the_inliers sample_files
                  everything_exists sample_abspath
                  accept_datasets sample_DataLoader_error
                  (sample_config "ibis" "DS-SA") false 6 false _ _
                  eq_refl eq_refl) Hne).
Defined.

Lemma ood_without_lesions_enumerates_primary_twice_witness :
  names_ok (sample_config "abcd" "tumor") = true ∧
  PyStr.contains "lesion" (PyStr.lower "tumor") = false ∧
  take 2 (run (get_dataloaders sample_files everything_exists sample_abspath
                 accept_datasets sample_DataLoader_error
                 (sample_config "abcd" "tumor") false true 6 false)).2
    = [EvGetImageFilesList "abcd" "/data/abcd" "/splits";
       EvGetImageFilesList "abcd" "/data/abcd" "/splits"].
Proof.
  split; [reflexivity|]. split; [reflexivity|].
  exact (proj1 (ood_without_lesions_enumerates_primary_twice sample_files
                  everything_exists sample_abspath
                  accept_datasets sample_DataLoader_error
                  (sample_config "abcd" "tumor") false 6 false
                  eq_refl eq_refl)).
Defined.

Lemma file_system_is_read_for_lesions_only_witness :
  PyStr.contains "lesion" (PyStr.lower "tumor") = false ∧
  run (get_dataloaders sample_files nothing_exists (λ path, path)
         accept_datasets sample_DataLoader_error
         (sample_config "abcd" "tumor") false true 6 false)
  = run (get_dataloaders sample_files everything_exists sample_abspath
           accept_datasets sample_DataLoader_error
           (sample_config "abcd" "tumor") false true 6 false).
Proof.
  split; [reflexivity|].
  exact (file_system_is_read_for_lesions_only sample_files everything_exists
           sample_abspath accept_datasets sample_DataLoader_error
           (sample_config "abcd" "tumor") false true 6 false
           nothing_exists (λ path, path) (or_intror eq_refl)).
Defined.
